(** * gabia_sms.core: the GabiaSMS client

    A shallow embedding of [gabia_sms/core.py]: settings resolution and
    validation, parameter validation, request construction, the MD5 access
    token, and the two remote operations [send] and [get_send_result].

    Conventions.
    - A Python [str] is represented by a [string] holding its UTF-8 bytes, so
      that [str.encode()] is the identity on the representation.
    - A Python [dict] is an association list in insertion order.
    - Exceptions are values of [exn]; a computation returns [Ok v] or
      [Raise e].
    - The random source, the clock and the XML-RPC endpoint are a [World];
      the helper modules of the package that [core.py] imports ([utils],
      [parser], [formats]) are a [Helpers] interface. *)

From Stdlib Require Import ZArith List String Ascii Bool Lia QArith.
Import ListNotations.

Local Open Scope string_scope.
Local Open Scope list_scope.

(** ** hashlib.md5 (RFC 1321) on 32-bit words held in [Z] *)

Module MD5.
Local Open Scope Z_scope.

Definition w32 (x : Z) : Z := x mod 2 ^ 32.
Definition add32 (x y : Z) : Z := w32 (x + y).
Definition not32 (x : Z) : Z := Z.lxor x 0xffffffff.
Definition rotl32 (x : Z) (n : Z) : Z :=
  Z.lor (w32 (Z.shiftl x n)) (Z.shiftr x (32 - n)).

(** [K i = floor (2^32 * |sin (i + 1)|)]. *)
Definition K : list Z :=
  [ 0xd76aa478; 0xe8c7b756; 0x242070db; 0xc1bdceee;
    0xf57c0faf; 0x4787c62a; 0xa8304613; 0xfd469501;
    0x698098d8; 0x8b44f7af; 0xffff5bb1; 0x895cd7be;
    0x6b901122; 0xfd987193; 0xa679438e; 0x49b40821;
    0xf61e2562; 0xc040b340; 0x265e5a51; 0xe9b6c7aa;
    0xd62f105d; 0x02441453; 0xd8a1e681; 0xe7d3fbc8;
    0x21e1cde6; 0xc33707d6; 0xf4d50d87; 0x455a14ed;
    0xa9e3e905; 0xfcefa3f8; 0x676f02d9; 0x8d2a4c8a;
    0xfffa3942; 0x8771f681; 0x6d9d6122; 0xfde5380c;
    0xa4beea44; 0x4bdecfa9; 0xf6bb4b60; 0xbebfbc70;
    0x289b7ec6; 0xeaa127fa; 0xd4ef3085; 0x04881d05;
    0xd9d4d039; 0xe6db99e5; 0x1fa27cf8; 0xc4ac5665;
    0xf4292244; 0x432aff97; 0xab9423a7; 0xfc93a039;
    0x655b59c3; 0x8f0ccc92; 0xffeff47d; 0x85845dd1;
    0x6fa87e4f; 0xfe2ce6e0; 0xa3014314; 0x4e0811a1;
    0xf7537e82; 0xbd3af235; 0x2ad7d2bb; 0xeb86d391 ].

Definition SHIFTS : list Z :=
  [ 7; 12; 17; 22; 7; 12; 17; 22; 7; 12; 17; 22; 7; 12; 17; 22;
    5; 9; 14; 20; 5; 9; 14; 20; 5; 9; 14; 20; 5; 9; 14; 20;
    4; 11; 16; 23; 4; 11; 16; 23; 4; 11; 16; 23; 4; 11; 16; 23;
    6; 10; 15; 21; 6; 10; 15; 21; 6; 10; 15; 21; 6; 10; 15; 21 ].

Record digest_state := mkState { sa : Z; sb : Z; sc : Z; sd : Z }.

Definition init_state : digest_state :=
  mkState 0x67452301 0xefcdab89 0x98badcfe 0x10325476.

(** The message with the padding of RFC 1321, section 3.1 and 3.2: a [0x80]
    byte, zero bytes up to 56 modulo 64, the bit length on 64 bits,
    little-endian. *)
Fixpoint le_bytes (n : nat) (x : Z) : list Z :=
  match n with
  | O => []
  | S n' => (x mod 256) :: le_bytes n' (x / 256)
  end.

Definition pad (msg : list Z) : list Z :=
  let len := Z.of_nat (List.length msg) in
  let zeros := Z.to_nat ((55 - len) mod 64) in
  msg ++ [0x80] ++ repeat 0 zeros ++ le_bytes 8 ((8 * len) mod 2 ^ 64).

Fixpoint of_le_bytes (bs : list Z) : Z :=
  match bs with
  | [] => 0
  | b :: bs' => b + 256 * of_le_bytes bs'
  end.

Fixpoint words (n : nat) (bs : list Z) : list Z :=
  match n with
  | O => []
  | S n' => of_le_bytes (firstn 4 bs) :: words n' (skipn 4 bs)
  end.

Definition round_fg (i : Z) (b c d : Z) : Z * Z :=
  if i <? 16 then (Z.lor (Z.land b c) (Z.land (not32 b) d), i)
  else if i <? 32 then (Z.lor (Z.land d b) (Z.land (not32 d) c), (5 * i + 1) mod 16)
  else if i <? 48 then (Z.lxor (Z.lxor b c) d, (3 * i + 5) mod 16)
  else (Z.lxor c (Z.lor b (not32 d)), (7 * i) mod 16).

Definition step (m : list Z) (st : digest_state) (i : nat) : digest_state :=
  let '(f, g) := round_fg (Z.of_nat i) (sb st) (sc st) (sd st) in
  let f' := add32 (add32 (add32 f (sa st)) (nth i K 0)) (nth (Z.to_nat g) m 0) in
  mkState (sd st) (add32 (sb st) (rotl32 f' (nth i SHIFTS 0))) (sb st) (sc st).

Definition process_block (st : digest_state) (block : list Z) : digest_state :=
  let m := words 16 block in
  let st' := fold_left (step m) (seq 0 64) st in
  mkState (add32 (sa st) (sa st')) (add32 (sb st) (sb st'))
          (add32 (sc st) (sc st')) (add32 (sd st) (sd st')).

Fixpoint process (n : nat) (st : digest_state) (bs : list Z) : digest_state :=
  match n with
  | O => st
  | S n' => process n' (process_block st (firstn 64 bs)) (skipn 64 bs)
  end.

(** The 16 bytes of the digest. *)
Definition digest (msg : list Z) : list Z :=
  let p := pad msg in
  let st := process (List.length p / 64) init_state p in
  le_bytes 4 (sa st) ++ le_bytes 4 (sb st) ++ le_bytes 4 (sc st) ++ le_bytes 4 (sd st).

Definition hex_digit (x : Z) : ascii :=
  nth (Z.to_nat (x mod 16))
      ["0"; "1"; "2"; "3"; "4"; "5"; "6"; "7";
       "8"; "9"; "a"; "b"; "c"; "d"; "e"; "f"]%char "0"%char.

Fixpoint hex (bs : list Z) : string :=
  match bs with
  | [] => EmptyString
  | b :: bs' => String (hex_digit (b / 16)) (String (hex_digit b) (hex bs'))
  end.

(** [str.encode()]: the bytes of the string. *)
Definition encode (s : string) : list Z :=
  map (fun c => Z.of_N (N_of_ascii c)) (list_ascii_of_string s).

(** [hashlib.md5(data).hexdigest()] *)
Definition hexdigest (data : list Z) : string := hex (digest data).

End MD5.

(** ** Python values and exceptions *)

(** The values that reach the client: [None], booleans, integers, strings,
    and lists and sets of strings (the receivers of a bulk send).  A set
    keeps its elements in iteration order. *)
Inductive pyval :=
| VNone
| VBool (b : bool)
| VInt (n : Z)
| VStr (s : string)
| VList (l : list string)
| VSet (l : list string).

(** Truth value of an object, as [not], [and] and [if] test it. *)
Definition truthy (v : pyval) : bool :=
  match v with
  | VNone => false
  | VBool b => b
  | VInt n => negb (n =? 0)%Z
  | VStr s => negb (s =? "")
  | VList l | VSet l => match l with [] => false | _ => true end
  end.

Definition isinstance_str (v : pyval) : bool :=
  match v with VStr _ => true | _ => false end.
Definition isinstance_list (v : pyval) : bool :=
  match v with VList _ => true | _ => false end.
Definition isinstance_set (v : pyval) : bool :=
  match v with VSet _ => true | _ => false end.

(** [v in t] for a tuple [t] of strings. *)
Definition py_in (v : pyval) (t : list string) : bool :=
  match v with
  | VStr s => existsb (String.eqb s) t
  | _ => false
  end.

(** The exceptions that can leave the client.  [SMSModuleException] is the
    only class the package raises itself; [XmlrpcError] stands for the
    instances of [xmlrpc_lib.Error]; [OtherError] for any exception of a
    class outside these. *)
Inductive exn :=
| SMSModuleException (msg : string)
| XmlrpcError (detail : string)
| TypeError (detail : string)
| KeyError (key : string)
| OtherError (name : string).

Inductive exn_class :=
| SMSModuleException_class
| XmlrpcError_class
| TypeError_class
| KeyError_class
| OtherError_class (name : string).

Definition class_of (e : exn) : exn_class :=
  match e with
  | SMSModuleException _ => SMSModuleException_class
  | XmlrpcError _ => XmlrpcError_class
  | TypeError _ => TypeError_class
  | KeyError _ => KeyError_class
  | OtherError n => OtherError_class n
  end.

(** [isinstance(e, xmlrpc_lib.Error)], the test of the [except] clauses. *)
Definition is_xmlrpc_error (e : exn) : bool :=
  match e with XmlrpcError _ => true | _ => false end.

Inductive result (A : Type) :=
| Ok (a : A)
| Raise (e : exn).
Arguments Ok {A} a.
Arguments Raise {A} e.

(** ** Python operations used by the client *)

Definition dict := list (string * pyval).

Fixpoint dict_get (k : string) (d : dict) : option pyval :=
  match d with
  | [] => None
  | (k', v) :: d' => if k' =? k then Some v else dict_get k d'
  end.

(** [d.setdefault(k, v)]: a key that is absent is added last. *)
Definition setdefault (k : string) (v : pyval) (d : dict) : dict :=
  match dict_get k d with
  | Some _ => d
  | None => d ++ [(k, v)]
  end.

(** [d[k]] *)
Definition getitem (d : dict) (k : string) : result pyval :=
  match dict_get k d with
  | Some v => Ok v
  | None => Raise (KeyError k)
  end.

Definition chars (s : string) : list string :=
  map (fun c => String c EmptyString) (list_ascii_of_string s).

(** [set(v)]: the distinct elements of an iterable. *)
Definition py_set (v : pyval) : result pyval :=
  match v with
  | VList l => Ok (VSet (nodup string_dec l))
  | VSet l => Ok (VSet l)
  | VStr s => Ok (VSet (nodup string_dec (chars s)))
  | VNone | VBool _ | VInt _ => Raise (TypeError "object is not iterable")
  end.

(** [for x in v] *)
Definition py_iter (v : pyval) : result (list string) :=
  match v with
  | VList l | VSet l => Ok l
  | VStr s => Ok (chars s)
  | VNone | VBool _ | VInt _ => Raise (TypeError "object is not iterable")
  end.

(** [','.join(v)] *)
Definition join_comma (v : pyval) : result pyval :=
  match py_iter v with
  | Ok l => Ok (VStr (String.concat "," l))
  | Raise e => Raise e
  end.

(** [v[-3:]] *)
Definition last3 (v : pyval) : result pyval :=
  match v with
  | VStr s => Ok (VStr (substring (String.length s - 3) 3 s))
  | VList l => Ok (VList (skipn (List.length l - 3) l))
  | VNone | VBool _ | VInt _ | VSet _ =>
      Raise (TypeError "object is not subscriptable")
  end.

(** [int(x)] of a float [x], given by its exact rational value: truncation
    toward zero. *)
Definition py_int (x : Q) : Z := Z.quot (Qnum x) (Zpos (Qden x)).

(** ** Regular expressions: the fragment [PHONE_NUMBER_REGEX] is written in

    A pattern is a sequence of character classes, each with a repetition
    range [{min,max}]; [re.compile(p).search(s)] is truthy when the pattern
    matches a substring of [s] starting at some position. *)
Module Re.

Inductive cls :=
| Lit (c : ascii)
| OneOf (cs : list ascii)
| Range (lo hi : ascii).

Record item := mkItem { it_cls : cls; it_min : nat; it_max : nat }.

Definition pattern := list item.

Definition cls_mem (c : cls) (a : ascii) : bool :=
  match c with
  | Lit b => Ascii.eqb a b
  | OneOf cs => existsb (Ascii.eqb a) cs
  | Range lo hi =>
      (N_of_ascii lo <=? N_of_ascii a)%N && (N_of_ascii a <=? N_of_ascii hi)%N
  end.

(** Exactly [n] characters of the class, then [k]. *)
Fixpoint match_exactly (c : cls) (n : nat) (k : string -> bool) (s : string) : bool :=
  match n with
  | O => k s
  | S n' =>
      match s with
      | EmptyString => false
      | String a s' => cls_mem c a && match_exactly c n' k s'
      end
  end.

(** At most [n] characters of the class, the longest first, then [k]. *)
Fixpoint match_upto (c : cls) (n : nat) (k : string -> bool) (s : string) : bool :=
  match n with
  | O => k s
  | S n' =>
      match s with
      | EmptyString => k s
      | String a s' => (cls_mem c a && match_upto c n' k s') || k s
      end
  end.

(** The pattern matches a prefix of the string. *)
Fixpoint match_here (p : pattern) : string -> bool :=
  match p with
  | [] => fun _ => true
  | it :: p' =>
      match_exactly (it_cls it) (it_min it)
        (match_upto (it_cls it) (it_max it - it_min it) (match_here p'))
  end.

(** [re.compile(p).search(s)], as a truth value. *)
Fixpoint search (p : pattern) (s : string) : bool :=
  match_here p s ||
  match s with
  | EmptyString => false
  | String _ s' => search p s'
  end.

End Re.

(** ** Module constants of [core.py] *)

(** ['01[0|1|6|7|8|9]{1}[0-9]{7,8}']: the bracket expression lists its
    characters literally, the bars included. *)
Definition PHONE_NUMBER_REGEX : Re.pattern :=
  [ Re.mkItem (Re.Lit "0") 1 1;
    Re.mkItem (Re.Lit "1") 1 1;
    Re.mkItem (Re.OneOf ["0"; "|"; "1"; "|"; "6"; "|"; "7"; "|"; "8"; "|"; "9"]%char) 1 1;
    Re.mkItem (Re.Range "0" "9") 7 8 ].

(** [MISSING_SETTING.format(setting=key)] *)
Definition MISSING_SETTING (setting : string) : string :=
  ("GABIA_SMS_SETTINGS " ++ setting ++ " is required")%string.

Definition REQUIRED_SETTINGS : list string := ["API_ID"; "API_KEY"; "SENDER"].
Definition KNOWN_SMS_TYPES : list string := ["sms"; "lms"; "multi_sms"; "multi_lms"].
Definition SINGLE_SMS_TYPES : list string := ["sms"; "lms"].
Definition MULTI_SMS_TYPES : list string := ["multi_sms"; "multi_lms"].
Definition SUCCESS_CODE : string := "0000".

Definition __API_URL : string := "http://sms.gabia.com/api".

(** ** The request and the observable events *)

(** The dictionary that [__get_sms_param] returns. *)
Record sms_param := mkParam {
  sender : pyval;
  sms_type : pyval;
  message : string;
  receiver : pyval;
  title : string;
  scheduled_time : string;
  key : Z
}.

(** The keyword arguments that fill a send template. *)
Record sms_fields := mkFields {
  f_api_id : pyval;
  f_access_token : string;
  f_sms_type : pyval;
  f_key : Z;
  f_title : string;
  f_message : string;
  f_sender : pyval;
  f_receiver : pyval;
  f_scheduled_time : string
}.

(** What [proxy.gabiasms(request)] does: it returns the response, raises an
    instance of [xmlrpc_lib.Error], or raises an exception of another class. *)
Inductive rpc_outcome :=
| RpcResponse (response : string)
| RpcError (detail : string)
| RpcOtherException (name : string).

Inductive event :=
| EvProxyEnter (url : string)
| EvProxyExit
| EvBeforeSend (p : sms_param)
| EvPostSent (p : sms_param)
| EvRpc (request : string) (outcome : rpc_outcome)
| EvLogError (e : exn)
| EvLogDebug (text : string).

(** ** Collaborators *)

(** The functions and templates that [core.py] imports from the rest of the
    package: [utils.escape_xml_string], [parser.get_result_code] and the three
    templates of [formats], each with its [.format(...)] applied. *)
Class Helpers := {
  escape_xml_string : string -> string;
  get_result_code : string -> string;
  REQUEST_SMS_XML_FORMAT : sms_fields -> string;
  REQUEST_MULTI_SMS_XML_FORMAT : sms_fields -> string;
  REQUEST_SMS_RESULT_FORMAT : pyval -> string -> pyval -> string
}.

(** The outside world: the [n]-th value of [utils.get_nonce()], the [n]-th
    reading [timezone.now().timestamp()] of the clock, and the endpoint behind
    [proxy.gabiasms]. *)
Class World := {
  get_nonce : nat -> string;
  now_timestamp : nat -> Q;
  gabiasms : string -> rpc_outcome
}.

(** How many nonces and clock readings have been drawn so far. *)
Record world_state := mkWorld { nonce_calls : nat; clock_calls : nat }.

(** ** Computations: state, exceptions and emitted events *)

Definition M (A : Type) : Type := world_state -> result A * world_state * list event.

Definition ret {A} (a : A) : M A := fun st => (Ok a, st, []).
Definition raise {A} (e : exn) : M A := fun st => (Raise e, st, []).
Definition lift {A} (r : result A) : M A := fun st => (r, st, []).
Definition emit (ev : event) : M unit := fun st => (Ok tt, st, [ev]).

Definition bind {A B} (m : M A) (f : A -> M B) : M B :=
  fun st =>
    match m st with
    | (Ok a, st', evs) =>
        let '(r, st'', evs') := f a st' in (r, st'', evs ++ evs')
    | (Raise e, st', evs) => (Raise e, st', evs)
    end.

Notation "x <- m ;; k" := (bind m (fun x => k))
  (at level 61, m at next level, right associativity).
Notation "' pat <- m ;; k" := (bind m (fun x => match x with pat => k end))
  (at level 61, pat pattern, m at next level, right associativity).
Notation "m ;;; k" := (bind m (fun _ => k))
  (at level 61, right associativity).

(** [try: body / except C as e: handler], [handles] being [isinstance(e, C)]. *)
Definition try_except {A} (body : M A) (handles : exn -> bool)
    (handler : exn -> M A) : M A :=
  fun st =>
    match body st with
    | (Ok a, st', evs) => (Ok a, st', evs)
    | (Raise e, st', evs) =>
        if handles e
        then let '(r, st'', evs') := handler e st' in (r, st'', evs ++ evs')
        else (Raise e, st', evs)
    end.

(** [with xmlrpc_lib.ServerProxy(url) as proxy: body]: the proxy is closed on
    every exit. *)
Definition with_ServerProxy {A} (url : string) (body : M A) : M A :=
  fun st =>
    let '(r, st', evs) := body st in
    (r, st', [EvProxyEnter url] ++ evs ++ [EvProxyExit]).

(** ** class GabiaSMS *)

Record GabiaSMS := mkGabiaSMS { __settings : dict }.

(** [getattr(settings, 'GABIA_SMS_SETTINGS', {})], each required key
    defaulted to [None]. *)
Definition __get_module_settings (django_settings : option dict) : dict :=
  let module_settings :=
    match django_settings with Some d => d | None => [] end in
  fold_left (fun d setting_key => setdefault setting_key VNone d)
            REQUIRED_SETTINGS module_settings.

Fixpoint __validate_settings (items : dict) : result unit :=
  match items with
  | [] => Ok tt
  | (k, value) :: rest =>
      if negb (truthy value)
      then Raise (SMSModuleException (MISSING_SETTING k))
      else __validate_settings rest
  end.

(** [GabiaSMS()] *)
Definition __init__ (django_settings : option dict) : result GabiaSMS :=
  let s := __get_module_settings django_settings in
  match __validate_settings s with
  | Ok _ => Ok (mkGabiaSMS s)
  | Raise e => Raise e
  end.

Definition __validate_required_params (message receiver : pyval) : result unit :=
  if negb (truthy message && truthy receiver)
  then Raise (SMSModuleException "Please check required parameters!")
  else if negb (isinstance_str message) || negb (isinstance_str receiver)
  then Raise (SMSModuleException "Please check parameters type!")
  else
    match receiver with
    | VStr r =>
        if negb (Re.search PHONE_NUMBER_REGEX r)
        then Raise (SMSModuleException "Please check phone number!")
        else Ok tt
    | _ => Raise (TypeError "expected string or bytes-like object")
    end.

Fixpoint check_phone_numbers (l : list string) : result unit :=
  match l with
  | [] => Ok tt
  | phone_number :: rest =>
      if negb (Re.search PHONE_NUMBER_REGEX phone_number)
      then Raise (SMSModuleException "Please check phone number!")
      else check_phone_numbers rest
  end.

Definition __validate_required_multi_params (message receivers : pyval) : result unit :=
  if negb (truthy message && truthy receivers)
  then Raise (SMSModuleException "Please check required parameters!")
  else if negb (isinstance_list receivers) || negb (isinstance_set receivers)
  then Raise (SMSModuleException "Please check parameters type!")
  else
    match py_iter receivers with
    | Ok l => check_phone_numbers l
    | Raise e => Raise e
    end.

Section Client.
Context {helpers : Helpers} {world : World}.

Definition draw_nonce : M string :=
  fun st => (Ok (get_nonce (nonce_calls st)),
             mkWorld (S (nonce_calls st)) (clock_calls st), []).

Definition read_clock : M Q :=
  fun st => (Ok (now_timestamp (clock_calls st)),
             mkWorld (nonce_calls st) (S (clock_calls st)), []).

Definition call_gabiasms (request : string) : M string :=
  fun st =>
    let out := gabiasms request in
    match out with
    | RpcResponse r => (Ok r, st, [EvRpc request out])
    | RpcError detail => (Raise (XmlrpcError detail), st, [EvRpc request out])
    | RpcOtherException name => (Raise (OtherError name), st, [EvRpc request out])
    end.

(** [nonce + hashlib.md5((nonce + self.__settings['API_KEY']).encode()).hexdigest()] *)
Definition __get_md5_access_token (self : GabiaSMS) : M string :=
  nonce <- draw_nonce ;;
  api_key <- lift (getitem (__settings self) "API_KEY") ;;
  match api_key with
  | VStr k => ret (nonce ++ MD5.hexdigest (MD5.encode (nonce ++ k)))%string
  | _ => raise (TypeError "can only concatenate str to str")
  end.

(** The two hooks of the class do nothing; their calls are recorded. *)
Definition post_sent_sms (self : GabiaSMS) (param : sms_param) : M unit :=
  emit (EvPostSent param).

Definition before_send_sms (self : GabiaSMS) (param : sms_param) : M unit :=
  emit (EvBeforeSend param).

Definition __get_sms_param (self : GabiaSMS) (message receiver : pyval)
    (title scheduled_time : string) (sms_type : pyval) : M sms_param :=
  '(receiver, sms_type) <-
    (if py_in sms_type SINGLE_SMS_TYPES
     then lift (__validate_required_params message receiver) ;;;
          ret (receiver, sms_type)
     else receivers <- lift (py_set receiver) ;;
          lift (__validate_required_multi_params message receivers) ;;;
          receiver <- lift (join_comma receivers) ;;
          sms_type <- lift (last3 sms_type) ;;
          ret (receiver, sms_type)) ;;
  sender <- lift (getitem (__settings self) "SENDER") ;;
  match message with
  | VStr m =>
      now <- read_clock ;;
      ret (mkParam sender sms_type (escape_xml_string m) receiver
                   (escape_xml_string title) scheduled_time (py_int now))
  | _ => raise (TypeError "expected str")
  end.

Definition __send_sms (self : GabiaSMS) (param : sms_param) : M pyval :=
  with_ServerProxy __API_URL
    (try_except
       (before_send_sms self param ;;;
        let sms_type := sms_type param in
        let request_format :=
          if py_in sms_type SINGLE_SMS_TYPES
          then REQUEST_SMS_XML_FORMAT
          else REQUEST_MULTI_SMS_XML_FORMAT in
        api_id <- lift (getitem (__settings self) "API_ID") ;;
        access_token <- __get_md5_access_token self ;;
        response <- call_gabiasms
          (request_format
             (mkFields api_id access_token sms_type (key param) (title param)
                       (message param) (sender param) (receiver param)
                       (scheduled_time param))) ;;
        let result_code := get_result_code response in
        (if negb (result_code =? SUCCESS_CODE)
         then emit (EvLogDebug result_code)
         else ret tt) ;;;
        post_sent_sms self param ;;;
        ret (VInt (key param)))
       is_xmlrpc_error
       (fun e =>
          emit (EvLogError e) ;;;
          raise (SMSModuleException "Bad request. Please check api docs"))).

Definition send (self : GabiaSMS) (message receiver : pyval) (title : string)
    (sms_type : pyval) (scheduled_time : string) : M pyval :=
  if negb (py_in sms_type KNOWN_SMS_TYPES)
  then raise (SMSModuleException "Please check sms type!")
  else
    param <- __get_sms_param self message receiver title scheduled_time sms_type ;;
    __send_sms self param.

Definition get_send_result (self : GabiaSMS) (key : pyval) : M string :=
  with_ServerProxy __API_URL
    (try_except
       (api_id <- lift (getitem (__settings self) "API_ID") ;;
        access_token <- __get_md5_access_token self ;;
        response <- call_gabiasms
          (REQUEST_SMS_RESULT_FORMAT api_id access_token key) ;;
        ret (get_result_code response))
       is_xmlrpc_error
       (fun e =>
          emit (EvLogError e) ;;;
          raise (SMSModuleException "Bad request. Please check api docs"))).

End Client.

(** ** The claims' vocabulary *)

(** The phone-number shape in the words of the specification: [01], one of
    0, 1, 6, 7, 8, 9, then seven or eight digits, and nothing else. *)
Definition is_digit (a : ascii) : bool :=
  (N_of_ascii "0" <=? N_of_ascii a)%N && (N_of_ascii a <=? N_of_ascii "9")%N.

Definition phone_number_shape (s : string) : bool :=
  match list_ascii_of_string s with
  | a0 :: a1 :: a2 :: digits =>
      Ascii.eqb a0 "0" && Ascii.eqb a1 "1" &&
      existsb (Ascii.eqb a2) ["0"; "1"; "6"; "7"; "8"; "9"]%char &&
      forallb is_digit digits &&
      ((List.length digits =? 7)%nat || (List.length digits =? 8)%nat)
  | _ => false
  end.

(** The three error kinds of the specification. *)
Inductive error_kind :=
| ConfigurationError
| ValidationError
| GatewayError.

(** How a caller can tell the kind of an [SMSModuleException] from its
    message. *)
Definition kind_of_message (msg : string) : option error_kind :=
  if String.prefix "GABIA_SMS_SETTINGS " msg then Some ConfigurationError
  else if existsb (String.eqb msg)
            ["Please check required parameters!"; "Please check parameters type!";
             "Please check phone number!"; "Please check sms type!"]
  then Some ValidationError
  else if msg =? "Bad request. Please check api docs" then Some GatewayError
  else None.

(** A setting is usable when it is present with a true value. *)
Definition setting_ok (d : dict) (k : string) : bool :=
  match dict_get k d with
  | Some v => truthy v
  | None => false
  end.

Definition is_required (k : string) : bool := existsb (String.eqb k) REQUIRED_SETTINGS.

(** Every entry under a key that is not required has a true value. *)
Definition others_truthy (d : dict) : bool :=
  forallb (fun kv => is_required (fst kv) || truthy (snd kv)) d.

(** A dictionary holds a key once. *)
Fixpoint unique_keys (d : dict) : bool :=
  match d with
  | [] => true
  | (k, _) :: d' =>
      match dict_get k d' with Some _ => false | None => unique_keys d' end
  end.

(** The keys that [__get_module_settings] adds, each with [None]. *)
Definition missing_defaults (d : dict) : dict :=
  map (fun k => (k, VNone))
      (filter (fun k => match dict_get k d with None => true | Some _ => false end)
              REQUIRED_SETTINGS).

(** The state after one more nonce was drawn. *)
Definition nonce_drawn (st : world_state) : world_state :=
  mkWorld (S (nonce_calls st)) (clock_calls st).

(** The token that nonce and secret key determine. *)
Definition token_of (nonce secret : string) : string :=
  (nonce ++ MD5.hexdigest (MD5.encode (nonce ++ secret)))%string.

Section Requests.
Context {helpers : Helpers}.

(** The request that [__send_sms] renders for a parameter dictionary. *)
Definition send_request (api_id : pyval) (access_token : string) (p : sms_param) : string :=
  (if py_in (sms_type p) SINGLE_SMS_TYPES
   then REQUEST_SMS_XML_FORMAT
   else REQUEST_MULTI_SMS_XML_FORMAT)
    (mkFields api_id access_token (sms_type p) (key p) (title p) (message p)
              (sender p) (receiver p) (scheduled_time p)).

Definition debug_log (result_code : string) : list event :=
  if result_code =? SUCCESS_CODE then [] else [EvLogDebug result_code].

End Requests.

Definition is_lower_hex (a : ascii) : bool :=
  existsb (Ascii.eqb a)
    ["0"; "1"; "2"; "3"; "4"; "5"; "6"; "7";
     "8"; "9"; "a"; "b"; "c"; "d"; "e"; "f"]%char.

(** ** Test doubles *)

Module Fake.

Definition py_str (v : pyval) : string :=
  match v with
  | VStr s => s
  | VNone => "None"
  | _ => "?"
  end.

Definition helpers : Helpers := {|
  escape_xml_string := fun s => s;
  get_result_code := fun response => substring 0 4 response;
  REQUEST_SMS_XML_FORMAT := fun f =>
    ("<sms>" ++ f_access_token f ++ "|" ++ py_str (f_sms_type f) ++ "|"
       ++ py_str (f_receiver f) ++ "|" ++ f_message f ++ "</sms>")%string;
  REQUEST_MULTI_SMS_XML_FORMAT := fun f =>
    ("<multi>" ++ f_access_token f ++ "|" ++ py_str (f_sms_type f) ++ "|"
       ++ py_str (f_receiver f) ++ "|" ++ f_message f ++ "</multi>")%string;
  REQUEST_SMS_RESULT_FORMAT := fun api_id access_token key =>
    ("<result>" ++ py_str api_id ++ "|" ++ access_token ++ "|" ++ py_str key
       ++ "</result>")%string
|}.

Definition nonce_stream (n : nat) : string :=
  match n with O => "nonce0" | 1%nat => "nonce1" | _ => "nonce2" end.

(** The clock reads 1700000000.75 s, then one second more per reading. *)
Definition clock (n : nat) : Q := (6800000003 # 4) + inject_Z (Z.of_nat n).

(** A gateway that accepts every request. *)
Definition world_accepting : World := {|
  get_nonce := nonce_stream;
  now_timestamp := clock;
  gabiasms := fun _ => RpcResponse "0000 OK"
|}.

(** A gateway that answers with the failure code 0001. *)
Definition world_rejecting : World := {|
  get_nonce := nonce_stream;
  now_timestamp := clock;
  gabiasms := fun _ => RpcResponse "0001 FAIL"
|}.

(** A gateway whose every call raises a protocol error. *)
Definition world_faulty : World := {|
  get_nonce := nonce_stream;
  now_timestamp := clock;
  gabiasms := fun _ => RpcError "ProtocolError"
|}.

Definition valid_settings : dict :=
  [("API_ID", VStr "id1"); ("API_KEY", VStr "key1"); ("SENDER", VStr "0100000000")].

Definition client : GabiaSMS := mkGabiaSMS valid_settings.

Definition st0 : world_state := mkWorld 0 0.

(** send("hello", "01012345678") against the accepting gateway. *)
Definition accepted_send :=
  @send helpers world_accepting client (VStr "hello") (VStr "01012345678")
        "SEND" (VStr "sms") "0" st0.

(** The same send against the rejecting gateway. *)
Definition rejected_send :=
  @send helpers world_rejecting client (VStr "hello") (VStr "01012345678")
        "SEND" (VStr "sms") "0" st0.

(** The same send against the faulty gateway. *)
Definition faulted_send :=
  @send helpers world_faulty client (VStr "hello") (VStr "01012345678")
        "SEND" (VStr "sms") "0" st0.

End Fake.

(** ** Further vocabulary *)

(** The mapping that [getattr(settings, 'GABIA_SMS_SETTINGS', {})] yields. *)
Definition configured (src : option dict) : dict :=
  match src with Some d => d | None => [] end.

Definition has_key (d : dict) (k : string) : bool :=
  match dict_get k d with Some _ => true | None => false end.

Definition all_truthy (d : dict) : bool :=
  forallb (fun kv => truthy (snd kv)) d.

(** The first required setting, in the order of [REQUIRED_SETTINGS], that a
    mapping does not hold. *)
Definition first_missing (d : dict) : option string :=
  find (fun k => negb (has_key d k)) REQUIRED_SETTINGS.

Definition is_rpc (ev : event) : bool :=
  match ev with EvRpc _ _ => true | _ => false end.

Definition is_hook (ev : event) : bool :=
  match ev with EvBeforeSend _ | EvPostSent _ => true | _ => false end.


Definition is_proxy (ev : event) : bool :=
  match ev with EvProxyEnter _ | EvProxyExit => true | _ => false end.

(** More test doubles: a gateway whose call raises an exception that is not
    an [xmlrpc_lib.Error], and a client whose API key is a number. *)
Module Scenario.

Definition world_unreachable : World := {|
  get_nonce := Fake.nonce_stream;
  now_timestamp := Fake.clock;
  gabiasms := fun _ => RpcOtherException "ConnectionRefusedError"
|}.

Definition numeric_key_settings : dict :=
  [("API_ID", VStr "id1"); ("API_KEY", VInt 12345); ("SENDER", VStr "0100000000")].

Definition numeric_key_client : GabiaSMS := mkGabiaSMS numeric_key_settings.

End Scenario.

(** * Properties *)

(** Case analysis of a membership in an explicit list of events. *)
Ltac in_events H :=
  repeat (destruct H as [H|H]; try discriminate H); try contradiction.

(** ** The digest function *)

(** The test suite of RFC 1321, appendix A.5. *)
Example md5_empty :
  MD5.hexdigest (MD5.encode "") = "d41d8cd98f00b204e9800998ecf8427e".
Proof. vm_compute. reflexivity. Qed.

Example md5_abc :
  MD5.hexdigest (MD5.encode "abc") = "900150983cd24fb0d6963f7d28e17f72".
Proof. vm_compute. reflexivity. Qed.

Example md5_message_digest :
  MD5.hexdigest (MD5.encode "message digest") = "f96b697d7cb7938d525a2f31aaf161d0".
Proof. vm_compute. reflexivity. Qed.

Example md5_two_blocks :
  MD5.hexdigest (MD5.encode
    "12345678901234567890123456789012345678901234567890123456789012345678901234567890")
  = "57edf4a22be3c955ac49da2e2107b67a".
Proof. vm_compute. reflexivity. Qed.

Lemma le_bytes_length n x : List.length (MD5.le_bytes n x) = n.
Proof.
  revert x. induction n as [|n IH]; intros x; simpl; [reflexivity|].
  now rewrite IH.
Qed.

(** The digest has 16 bytes, that is 128 bits. *)
Lemma digest_length data : List.length (MD5.digest data) = 16%nat.
Proof.
  unfold MD5.digest. rewrite !length_app, !le_bytes_length. reflexivity.
Qed.

Lemma hex_length bs : String.length (MD5.hex bs) = (2 * List.length bs)%nat.
Proof.
  induction bs as [|b bs IH]; simpl; [reflexivity|]. rewrite IH. lia.
Qed.

Lemma hex_digit_lower x : is_lower_hex (MD5.hex_digit x) = true.
Proof.
  unfold MD5.hex_digit.
  assert (H : (0 <= x mod 16 < 16)%Z) by (apply Z.mod_pos_bound; lia).
  assert (Hn : (Z.to_nat (x mod 16) < 16)%nat) by lia.
  generalize dependent (Z.to_nat (x mod 16)). intros n Hn.
  do 16 (destruct n as [|n]; [reflexivity|]).
  lia.
Qed.

Lemma hex_lower bs :
  forallb is_lower_hex (list_ascii_of_string (MD5.hex bs)) = true.
Proof.
  induction bs as [|b bs IH]; simpl; [reflexivity|].
  rewrite !hex_digit_lower. exact IH.
Qed.

Lemma hexdigest_length data : String.length (MD5.hexdigest data) = 32%nat.
Proof.
  unfold MD5.hexdigest. now rewrite hex_length, digest_length.
Qed.

(** ** Settings *)

Lemma dict_get_app k d d' :
  dict_get k (d ++ d') =
  match dict_get k d with Some v => Some v | None => dict_get k d' end.
Proof.
  induction d as [|[k' v] d IH]; simpl; [reflexivity|].
  destruct (k' =? k); [reflexivity | exact IH].
Qed.

Lemma dict_get_In k v d : dict_get k d = Some v -> In (k, v) d.
Proof.
  induction d as [|[k' v'] d IH]; simpl; [discriminate|].
  destruct (String.eqb_spec k' k) as [->|_].
  - intros [= ->]. now left.
  - intros H. right. now apply IH.
Qed.

Lemma dict_get_None_not_In k v d : dict_get k d = None -> ~ In (k, v) d.
Proof.
  induction d as [|[k' v'] d IH]; simpl; [tauto|].
  destruct (String.eqb_spec k' k) as [->|Hne]; [discriminate|].
  intros H [[= -> _]|Hin]; [now apply Hne | now apply IH].
Qed.

Lemma unique_keys_get k v d :
  unique_keys d = true -> In (k, v) d -> dict_get k d = Some v.
Proof.
  induction d as [|[k' v'] d IH]; simpl; [tauto|].
  destruct (dict_get k' d) eqn:Hk'; [discriminate|].
  intros Hu [[= -> ->]|Hin].
  - now rewrite String.eqb_refl.
  - destruct (String.eqb_spec k' k) as [->|_]; [|now apply IH].
    exfalso. now apply (dict_get_None_not_In _ v _ Hk').
Qed.

Lemma get_module_settings_eq src :
  __get_module_settings src =
  let d := match src with Some d => d | None => [] end in d ++ missing_defaults d.
Proof.
  unfold __get_module_settings, missing_defaults, REQUIRED_SETTINGS.
  generalize (match src with Some d => d | None => [] end). intros d.
  cbn [fold_left filter]. unfold setdefault.
  destruct (dict_get "API_ID" d) eqn:H1;
    repeat rewrite ?dict_get_app; cbn [dict_get String.eqb Ascii.eqb Bool.eqb];
    destruct (dict_get "API_KEY" d) eqn:H2;
    repeat rewrite ?dict_get_app, ?H1, ?H2; cbn [dict_get String.eqb Ascii.eqb Bool.eqb];
    destruct (dict_get "SENDER" d) eqn:H3;
    repeat rewrite ?dict_get_app, ?H1, ?H2, ?H3; cbn [dict_get String.eqb Ascii.eqb Bool.eqb];
    cbn [map]; rewrite <- ?app_assoc; try reflexivity; now rewrite ?app_nil_r.
Qed.

Lemma validate_settings_app a b :
  __validate_settings (a ++ b) =
  match __validate_settings a with
  | Ok _ => __validate_settings b
  | Raise e => Raise e
  end.
Proof.
  induction a as [|[k v] a IH]; simpl; [reflexivity|].
  destruct (truthy v); simpl; [exact IH | reflexivity].
Qed.

Lemma validate_settings_ok d :
  (forall k v, In (k, v) d -> truthy v = true) -> __validate_settings d = Ok tt.
Proof.
  induction d as [|[k v] d IH]; simpl; intros H; [reflexivity|].
  rewrite (H k v) by now left. simpl. apply IH. intros k' v' Hin.
  apply (H k' v'). now right.
Qed.

Lemma validate_settings_raise d e :
  __validate_settings d = Raise e ->
  exists k v, In (k, v) d /\ truthy v = false /\
              e = SMSModuleException (MISSING_SETTING k).
Proof.
  induction d as [|[k v] d IH]; simpl; [discriminate|].
  destruct (truthy v) eqn:Hv; simpl.
  - intros H. destruct (IH H) as (k' & v' & Hin & Hf & He).
    exists k', v'. auto.
  - intros [= <-]. exists k, v. auto.
Qed.

Lemma validate_settings_falsy d k v :
  In (k, v) d -> truthy v = false -> __validate_settings d <> Ok tt.
Proof.
  induction d as [|[k' v'] d IH]; simpl; [tauto|].
  intros [[= -> ->]|Hin] Hf.
  - rewrite Hf. discriminate.
  - destruct (truthy v'); simpl; [now apply IH | discriminate].
Qed.

Lemma is_required_In k : is_required k = true <-> In k REQUIRED_SETTINGS.
Proof.
  unfold is_required. rewrite existsb_exists. split.
  - intros (x & Hin & Heq). apply String.eqb_eq in Heq. now subst.
  - intros Hin. exists k. split; [exact Hin | apply String.eqb_refl].
Qed.

Lemma missing_defaults_In d k v :
  In (k, v) (missing_defaults d) ->
  In k REQUIRED_SETTINGS /\ dict_get k d = None /\ v = VNone.
Proof.
  unfold missing_defaults. rewrite in_map_iff.
  intros (k' & [= <- <-] & Hin). apply filter_In in Hin as [Hin Hg].
  destruct (dict_get k' d); [discriminate|]. auto.
Qed.

Lemma missing_defaults_nil d :
  forallb (setting_ok d) REQUIRED_SETTINGS = true -> missing_defaults d = [].
Proof.
  unfold missing_defaults, setting_ok, REQUIRED_SETTINGS. cbn [forallb filter].
  destruct (dict_get "API_ID" d), (dict_get "API_KEY" d), (dict_get "SENDER" d);
    cbn; try reflexivity; rewrite ?andb_false_r; discriminate.
Qed.

(** An object that the constructor returned has the three required
    settings, each with a true value. *)
Lemma init_ok_settings src self k :
  __init__ src = Ok self -> In k REQUIRED_SETTINGS ->
  exists v, dict_get k (__settings self) = Some v /\ truthy v = true.
Proof.
  unfold __init__. destruct (__validate_settings _) as [[]|e] eqn:Hv; [|discriminate].
  intros [= <-] Hk. cbn [__settings].
  assert (Hin : exists v, dict_get k (__get_module_settings src) = Some v).
  { rewrite get_module_settings_eq. cbv zeta.
    generalize (match src with Some d => d | None => [] end). intros d.
    rewrite dict_get_app. destruct (dict_get k d) eqn:Hg; [eauto|].
    unfold missing_defaults, REQUIRED_SETTINGS in *. cbn [filter].
    destruct Hk as [<-|[<-|[<-|[]]]]; rewrite ?Hg;
      repeat match goal with
             | |- context [dict_get ?x d] => destruct (dict_get x d)
             end; cbn; eauto. }
  destruct Hin as [v Hg]. exists v. split; [exact Hg|].
  destruct (truthy v) eqn:Ht; [reflexivity|]. exfalso.
  eapply validate_settings_falsy; [apply dict_get_In, Hg | exact Ht | exact Hv].
Qed.

(** C6, as the specification states it, fails: with the three required
    settings present and non-empty, construction still fails when the
    mapping holds one more entry whose value is empty. *)
Lemma construction_rejects_extra_empty_entry :
  let d := [("API_ID", VStr "id1"); ("API_KEY", VStr "key1");
            ("SENDER", VStr "0100000000"); ("EXTRA", VStr "")] in
  forallb (setting_ok d) REQUIRED_SETTINGS = true /\
  __init__ (Some d) = Raise (SMSModuleException "GABIA_SMS_SETTINGS EXTRA is required").
Proof. split; reflexivity. Qed.

(** C6 (amended): for a settings mapping whose entries other than API_ID,
    API_KEY and SENDER all have true values, construction succeeds, keeping
    the mapping as it is, when the three are present with true values; and
    when one of the three is missing or has a false value, construction
    raises SMSModuleException with the message that names such a key, and
    returns no object. *)
Theorem construction_checks_required_settings (src : option dict) :
  let d := match src with Some d => d | None => [] end in
  unique_keys d = true ->
  others_truthy d = true ->
  (forallb (setting_ok d) REQUIRED_SETTINGS = true ->
   __init__ src = Ok (mkGabiaSMS d)) /\
  (forallb (setting_ok d) REQUIRED_SETTINGS = false ->
   exists k, In k REQUIRED_SETTINGS /\ setting_ok d k = false /\
             __init__ src = Raise (SMSModuleException (MISSING_SETTING k))).
Proof.
  intros d Hu Ho. unfold __init__. rewrite get_module_settings_eq. fold d. cbv zeta.
  assert (Hreq : forall k v, In (k, v) d -> truthy v = false ->
                             In k REQUIRED_SETTINGS /\ setting_ok d k = false).
  { intros k v Hin Hf. unfold others_truthy in Ho. rewrite forallb_forall in Ho.
    specialize (Ho _ Hin). cbn [fst snd] in Ho. rewrite Hf, orb_false_r in Ho.
    split; [now apply is_required_In|].
    unfold setting_ok. now rewrite (unique_keys_get _ _ _ Hu Hin). }
  split.
  - intros Hall. rewrite (missing_defaults_nil _ Hall), app_nil_r.
    rewrite validate_settings_ok; [reflexivity|].
    intros k v Hin. destruct (truthy v) eqn:Hf; [reflexivity|].
    destruct (Hreq _ _ Hin Hf) as [Hk Hko].
    rewrite forallb_forall in Hall. rewrite (Hall _ Hk) in Hko. discriminate.
  - intros Hsome.
    destruct (__validate_settings (d ++ missing_defaults d)) as [[]|e] eqn:Hv.
    + exfalso. apply not_true_iff_false in Hsome. apply Hsome.
      apply forallb_forall. intros k Hk. unfold setting_ok.
      destruct (dict_get k d) as [v|] eqn:Hg.
      * destruct (truthy v) eqn:Hf; [reflexivity|]. exfalso.
        apply (validate_settings_falsy (d ++ missing_defaults d) k v); auto.
        apply in_or_app. left. now apply dict_get_In.
      * exfalso.
        apply (validate_settings_falsy (d ++ missing_defaults d) k VNone); auto.
        apply in_or_app. right. unfold missing_defaults. apply in_map_iff.
        exists k. split; [reflexivity|]. apply filter_In. now rewrite Hg.
    + apply validate_settings_raise in Hv as (k & v & Hin & Hf & ->).
      exists k. apply in_app_or in Hin as [Hin|Hin].
      * destruct (Hreq _ _ Hin Hf). auto.
      * apply missing_defaults_In in Hin as (Hk & Hg & _).
        unfold setting_ok. rewrite Hg. auto.
Qed.

Lemma construction_checks_required_settings_witness :
  __init__ (Some Fake.valid_settings) = Ok (mkGabiaSMS Fake.valid_settings) /\
  (exists k, In k REQUIRED_SETTINGS /\
             setting_ok [("API_ID", VStr "id1"); ("SENDER", VStr "")] k = false /\
             __init__ (Some [("API_ID", VStr "id1"); ("SENDER", VStr "")])
             = Raise (SMSModuleException (MISSING_SETTING k))).
Proof.
  split.
  - apply (construction_checks_required_settings (Some Fake.valid_settings));
      reflexivity.
  - apply (construction_checks_required_settings
             (Some [("API_ID", VStr "id1"); ("SENDER", VStr "")]));
      reflexivity.
Defined.

(** ** Parameter validation *)

Lemma py_in_false v t :
  (forall s, In s t -> v <> VStr s) -> py_in v t = false.
Proof.
  intros H. destruct v as [| | |s| |]; try reflexivity. cbn.
  apply not_true_iff_false. rewrite existsb_exists. intros (x & Hin & Heq).
  apply String.eqb_eq in Heq. subst x. now apply (H s).
Qed.

Lemma py_in_single_known v :
  py_in v SINGLE_SMS_TYPES = true -> py_in v KNOWN_SMS_TYPES = true.
Proof.
  destruct v as [| | |s| |]; try discriminate. cbn.
  destruct (s =? "sms"), (s =? "lms"); cbn; auto; discriminate.
Qed.

(** The messages of the validators are validation messages. *)
Lemma validate_required_params_raise message receiver e :
  __validate_required_params message receiver = Raise e ->
  exists msg, e = SMSModuleException msg /\
              kind_of_message msg = Some ValidationError.
Proof.
  unfold __validate_required_params.
  destruct (negb (truthy message && truthy receiver)).
  { intros [= <-]. eexists. split; reflexivity. }
  destruct (negb (isinstance_str message) || negb (isinstance_str receiver)) eqn:Hty.
  { intros [= <-]. eexists. split; reflexivity. }
  destruct receiver as [| | |r| |];
    try (destruct (isinstance_str message); discriminate).
  destruct (negb (Re.search PHONE_NUMBER_REGEX r)); [|discriminate].
  intros [= <-]. eexists. split; reflexivity.
Qed.

Lemma validate_required_params_ok message receiver :
  __validate_required_params message receiver = Ok tt ->
  exists m r, message = VStr m /\ receiver = VStr r /\
              Re.search PHONE_NUMBER_REGEX r = true.
Proof.
  unfold __validate_required_params.
  destruct (negb (truthy message && truthy receiver)); [discriminate|].
  destruct message as [| | |m| |], receiver as [| | |r| |];
    cbn [isinstance_str negb orb]; try discriminate.
  destruct (Re.search PHONE_NUMBER_REGEX r) eqn:Hm; [|discriminate].
  intros _. exists m, r. auto.
Qed.

(** A receiver in which the pattern occurs nowhere is rejected. *)
Lemma validate_required_params_no_match message r :
  Re.search PHONE_NUMBER_REGEX r = false ->
  exists msg, __validate_required_params message (VStr r)
              = Raise (SMSModuleException msg).
Proof.
  intros Hs. destruct (__validate_required_params message (VStr r)) as [[]|e] eqn:Hv.
  - apply validate_required_params_ok in Hv as (m & r' & _ & [= <-] & Hm).
    congruence.
  - apply validate_required_params_raise in Hv as (msg & -> & _). eauto.
Qed.

(** The type test of the bulk validator holds of every value: no object is
    both a list and a set. *)
Lemma not_list_or_not_set v :
  negb (isinstance_list v) || negb (isinstance_set v) = true.
Proof. destruct v; reflexivity. Qed.

(** Hence the bulk validator raises on every input. *)
Lemma validate_required_multi_params_raise message receivers :
  exists msg, __validate_required_multi_params message receivers
              = Raise (SMSModuleException msg) /\
              kind_of_message msg = Some ValidationError.
Proof.
  unfold __validate_required_multi_params.
  destruct (negb (truthy message && truthy receivers)).
  - eexists. split; reflexivity.
  - rewrite not_list_or_not_set. eexists. split; reflexivity.
Qed.

Lemma prefix_append a b : String.prefix a (a ++ b) = true.
Proof.
  induction a as [|c a IH]; cbn; [now destruct b|].
  destruct (ascii_dec c c); [exact IH | congruence].
Qed.

Lemma kind_of_missing_setting k :
  kind_of_message (MISSING_SETTING k) = Some ConfigurationError.
Proof.
  unfold kind_of_message, MISSING_SETTING. now rewrite prefix_append.
Qed.

Section ClientProperties.
Context {helpers : Helpers} {world : World}.

(** Building the request: it emits no event; on success the send is a single
    one, message and receiver are strings, the pattern occurs in the
    receiver, and the clock was read once; on failure nothing was drawn. *)
Lemma get_sms_param_inv self message receiver title scheduled_time sms_type st res st' evs :
  __get_sms_param self message receiver title scheduled_time sms_type st
  = (res, st', evs) ->
  evs = [] /\
  match res with
  | Ok p =>
      py_in sms_type SINGLE_SMS_TYPES = true /\
      st' = mkWorld (nonce_calls st) (S (clock_calls st)) /\
      exists m r sndr,
        message = VStr m /\ receiver = VStr r /\
        Re.search PHONE_NUMBER_REGEX r = true /\
        getitem (__settings self) "SENDER" = Ok sndr /\
        p = mkParam sndr sms_type (escape_xml_string m) (VStr r)
                    (escape_xml_string title) scheduled_time
                    (py_int (now_timestamp (clock_calls st)))
  | Raise e =>
      st' = st /\
      ((exists msg, e = SMSModuleException msg /\
                    kind_of_message msg = Some ValidationError) \/
       (exists d, e = TypeError d) \/ (exists k, e = KeyError k))
  end.
Proof.
  unfold __get_sms_param, bind, lift, ret, raise, read_clock.
  destruct (py_in sms_type SINGLE_SMS_TYPES) eqn:Hs.
  - destruct (__validate_required_params message receiver) as [[]|e] eqn:Hv.
    + apply validate_required_params_ok in Hv as (m & r & -> & -> & Hm).
      destruct (getitem (__settings self) "SENDER") as [sndr|e] eqn:Hg; cbn.
      * intros [= <- <- <-]. split; [reflexivity|]. split; [reflexivity|].
        split; [reflexivity|]. exists m, r, sndr. auto.
      * intros [= <- <- <-]. unfold getitem in Hg.
        destruct (dict_get _ _); [discriminate|]. injection Hg as <-. eauto 6.
    + apply validate_required_params_raise in Hv as (msg & -> & Hk).
      intros [= <- <- <-]. eauto 6.
  - destruct (py_set receiver) as [receivers|e] eqn:Hp.
    + destruct (validate_required_multi_params_raise message receivers)
        as (msg & -> & Hk).
      intros [= <- <- <-]. eauto 6.
    + intros [= <- <- <-]. destruct receiver; try discriminate;
        injection Hp as <-; eauto 6.
Qed.

Lemma get_md5_access_token_eq self st :
  __get_md5_access_token self st =
  match getitem (__settings self) "API_KEY" with
  | Ok (VStr secret) =>
      (Ok (token_of (get_nonce (nonce_calls st)) secret), nonce_drawn st, [])
  | Ok _ => (Raise (TypeError "can only concatenate str to str"), nonce_drawn st, [])
  | Raise e => (Raise e, nonce_drawn st, [])
  end.
Proof.
  unfold __get_md5_access_token, bind, draw_nonce, lift, ret, raise.
  destruct (getitem (__settings self) "API_KEY") as [[| | |k| |]|e]; reflexivity.
Qed.

(** Every path through [__send_sms]. *)
Lemma send_sms_eq self p st :
  __send_sms self p st =
  match getitem (__settings self) "API_ID" with
  | Raise e => (Raise e, st, [EvProxyEnter __API_URL; EvBeforeSend p; EvProxyExit])
  | Ok api_id =>
      match getitem (__settings self) "API_KEY" with
      | Ok (VStr secret) =>
          let request :=
            send_request api_id (token_of (get_nonce (nonce_calls st)) secret) p in
          match gabiasms request with
          | RpcResponse response =>
              (Ok (VInt (key p)), nonce_drawn st,
               [EvProxyEnter __API_URL; EvBeforeSend p;
                EvRpc request (RpcResponse response)]
               ++ debug_log (get_result_code response)
               ++ [EvPostSent p; EvProxyExit])
          | RpcError detail =>
              (Raise (SMSModuleException "Bad request. Please check api docs"),
               nonce_drawn st,
               [EvProxyEnter __API_URL; EvBeforeSend p;
                EvRpc request (RpcError detail);
                EvLogError (XmlrpcError detail); EvProxyExit])
          | RpcOtherException name =>
              (Raise (OtherError name), nonce_drawn st,
               [EvProxyEnter __API_URL; EvBeforeSend p;
                EvRpc request (RpcOtherException name); EvProxyExit])
          end
      | Ok _ =>
          (Raise (TypeError "can only concatenate str to str"), nonce_drawn st,
           [EvProxyEnter __API_URL; EvBeforeSend p; EvProxyExit])
      | Raise e =>
          (Raise e, nonce_drawn st,
           [EvProxyEnter __API_URL; EvBeforeSend p; EvProxyExit])
      end
  end.
Proof.
  unfold __send_sms, with_ServerProxy, try_except, bind, before_send_sms,
    post_sent_sms, emit, lift.
  destruct (getitem (__settings self) "API_ID") as [api_id|e] eqn:Hid.
  2:{ unfold getitem in Hid. destruct (dict_get _ _); [discriminate|].
      injection Hid as <-. reflexivity. }
  rewrite get_md5_access_token_eq.
  destruct (getitem (__settings self) "API_KEY") as [[| | |secret| |]|e] eqn:Hkey;
    try reflexivity.
  2:{ unfold getitem in Hkey. destruct (dict_get _ _); [discriminate|].
      injection Hkey as <-. reflexivity. }
  cbv zeta. unfold call_gabiasms, send_request, debug_log, ret, raise.
  destruct (gabiasms _) as [response|detail|name]; try reflexivity.
  cbn. destruct (get_result_code response =? SUCCESS_CODE); reflexivity.
Qed.

(** Every path through [get_send_result]. *)
Lemma get_send_result_eq self key st :
  get_send_result self key st =
  match getitem (__settings self) "API_ID" with
  | Raise e => (Raise e, st, [EvProxyEnter __API_URL; EvProxyExit])
  | Ok api_id =>
      match getitem (__settings self) "API_KEY" with
      | Ok (VStr secret) =>
          let request :=
            REQUEST_SMS_RESULT_FORMAT api_id
              (token_of (get_nonce (nonce_calls st)) secret) key in
          match gabiasms request with
          | RpcResponse response =>
              (Ok (get_result_code response), nonce_drawn st,
               [EvProxyEnter __API_URL; EvRpc request (RpcResponse response);
                EvProxyExit])
          | RpcError detail =>
              (Raise (SMSModuleException "Bad request. Please check api docs"),
               nonce_drawn st,
               [EvProxyEnter __API_URL; EvRpc request (RpcError detail);
                EvLogError (XmlrpcError detail); EvProxyExit])
          | RpcOtherException name =>
              (Raise (OtherError name), nonce_drawn st,
               [EvProxyEnter __API_URL; EvRpc request (RpcOtherException name);
                EvProxyExit])
          end
      | Ok _ =>
          (Raise (TypeError "can only concatenate str to str"), nonce_drawn st,
           [EvProxyEnter __API_URL; EvProxyExit])
      | Raise e => (Raise e, nonce_drawn st, [EvProxyEnter __API_URL; EvProxyExit])
      end
  end.
Proof.
  unfold get_send_result, with_ServerProxy, try_except, bind, lift.
  destruct (getitem (__settings self) "API_ID") as [api_id|e] eqn:Hid.
  2:{ unfold getitem in Hid. destruct (dict_get _ _); [discriminate|].
      injection Hid as <-. reflexivity. }
  rewrite get_md5_access_token_eq.
  destruct (getitem (__settings self) "API_KEY") as [[| | |secret| |]|e] eqn:Hkey;
    try reflexivity.
  2:{ unfold getitem in Hkey. destruct (dict_get _ _); [discriminate|].
      injection Hkey as <-. reflexivity. }
  cbv zeta. unfold call_gabiasms, ret.
  destruct (gabiasms _) as [response|detail|name]; reflexivity.
Qed.

(** C10: a [sms_type] outside sms, lms, multi_sms and multi_lms makes [send]
    raise the error "Please check sms type!" whatever the other arguments
    are, with no event emitted and neither nonce nor clock drawn: nothing was
    validated, no token generated, the gateway not reached. *)
Theorem send_rejects_unknown_sms_type self message receiver title sms_type
    scheduled_time st :
  (forall s, In s KNOWN_SMS_TYPES -> sms_type <> VStr s) ->
  send self message receiver title sms_type scheduled_time st
  = (Raise (SMSModuleException "Please check sms type!"), st, []).
Proof.
  intros H. unfold send. now rewrite (py_in_false _ _ H).
Qed.

(** C1: the bulk call send("hi", ["01012345678", "01012345678"],
    sms_type="multi_sms") does not build a request: it raises "Please check
    parameters type!" out of the bulk validator, whose type test holds of
    every value, and nothing is sent. *)
Theorem send_multi_sms_raises_type_error self st :
  send self (VStr "hi") (VList ["01012345678"; "01012345678"]) "SEND"
       (VStr "multi_sms") "0" st
  = (Raise (SMSModuleException "Please check parameters type!"), st, []).
Proof. reflexivity. Qed.

(** A known [sms_type] that is not a single one never gets past request
    construction. *)
Lemma send_multi_never_succeeds self message receiver title sms_type
    scheduled_time st :
  py_in sms_type SINGLE_SMS_TYPES = false ->
  exists e, send self message receiver title sms_type scheduled_time st
            = (Raise e, st, []).
Proof.
  intros Hs. unfold send. destruct (negb (py_in sms_type KNOWN_SMS_TYPES)).
  - eexists. reflexivity.
  - unfold bind.
    destruct (__get_sms_param _ _ _ _ _ _ _) as [[[p|e] st1] evs1] eqn:Hp;
      apply get_sms_param_inv in Hp as [-> Hp].
    + destruct Hp as [Hp _]. congruence.
    + destruct Hp as [-> _]. eexists. reflexivity.
Qed.

(** A single send whose receiver holds no occurrence of the pattern raises a
    validation error and reaches neither token generation nor the gateway. *)
Lemma send_rejects_unmatched_receiver self message r title sms_type
    scheduled_time st :
  py_in sms_type SINGLE_SMS_TYPES = true ->
  Re.search PHONE_NUMBER_REGEX r = false ->
  exists msg,
    send self message (VStr r) title sms_type scheduled_time st
    = (Raise (SMSModuleException msg), st, []) /\
    kind_of_message msg = Some ValidationError.
Proof.
  intros Hs Hm. unfold send. rewrite (py_in_single_known _ Hs). cbn [negb].
  unfold bind, __get_sms_param, lift. rewrite Hs. unfold bind.
  destruct (__validate_required_params message (VStr r)) as [[]|e] eqn:Hv.
  - apply validate_required_params_ok in Hv as (m & r' & _ & [= <-] & Hr).
    congruence.
  - apply validate_required_params_raise in Hv as (msg & -> & Hk). eauto.
Qed.

(** C4: when the remote call of a [send] returns a response, [send] returns
    the dispatch key, read from the clock when the request was built,
    whatever the result code in the response is; a code other than "0000" is
    logged at debug level between the call and the after-send hook, nothing
    is logged as an error, and nothing is raised. *)
Theorem send_returns_key_whatever_result_code self message receiver title
    sms_type scheduled_time st res st' evs request response :
  send self message receiver title sms_type scheduled_time st = (res, st', evs) ->
  In (EvRpc request (RpcResponse response)) evs ->
  exists p,
    key p = py_int (now_timestamp (clock_calls st)) /\
    res = Ok (VInt (key p)) /\
    evs = [EvProxyEnter __API_URL; EvBeforeSend p;
           EvRpc request (RpcResponse response)]
          ++ (if get_result_code response =? SUCCESS_CODE
              then []
              else [EvLogDebug (get_result_code response)])
          ++ [EvPostSent p; EvProxyExit].
Proof.
  unfold send. destruct (negb (py_in sms_type KNOWN_SMS_TYPES)).
  { intros [= <- <- <-] []. }
  unfold bind.
  destruct (__get_sms_param _ _ _ _ _ _ _) as [[[p|e] st1] evs1] eqn:Hp;
    apply get_sms_param_inv in Hp as [-> Hp].
  2:{ intros [= <- <- <-] []. }
  destruct Hp as (_ & -> & m & r & sndr & -> & -> & _ & _ & Hpeq).
  rewrite send_sms_eq.
  destruct (getitem (__settings self) "API_ID") as [api_id|e].
  2:{ intros [= <- <- <-] Hin. cbn in Hin. in_events Hin. }
  destruct (getitem (__settings self) "API_KEY") as [[| | |secret| |]|e];
    try (intros [= <- <- <-] Hin; cbn in Hin; in_events Hin).
  cbv zeta. destruct (gabiasms _) as [response0|detail|name] eqn:Hg;
    intros [= <- <- <-] Hin; cbn in Hin.
  - exists p. split; [now rewrite Hpeq|]. split; [reflexivity|].
    unfold debug_log in *.
    destruct (get_result_code response0 =? SUCCESS_CODE) eqn:Hc; cbn in Hin;
      in_events Hin; injection Hin as <- <-; cbn; rewrite Hc; reflexivity.
  - in_events Hin.
  - in_events Hin.
Qed.


(** C7 (amended): the value a successful [send] returns is an integer, not a
    string: the seconds-since-epoch reading of the clock taken when the
    request was built, truncated to an integer; the clock is read once. *)
Theorem send_returns_integer_clock_seconds self message receiver title
    sms_type scheduled_time st v st' evs :
  send self message receiver title sms_type scheduled_time st = (Ok v, st', evs) ->
  v = VInt (py_int (now_timestamp (clock_calls st))) /\
  clock_calls st' = S (clock_calls st).
Proof.
  unfold send. destruct (negb (py_in sms_type KNOWN_SMS_TYPES)); [discriminate|].
  unfold bind.
  destruct (__get_sms_param _ _ _ _ _ _ _) as [[[p|e] st1] evs1] eqn:Hp;
    apply get_sms_param_inv in Hp as [-> Hp]; [|discriminate].
  destruct Hp as (_ & -> & m & r & sndr & -> & -> & _ & _ & Hpeq).
  rewrite send_sms_eq.
  destruct (getitem (__settings self) "API_ID") as [api_id|e]; [|discriminate].
  destruct (getitem (__settings self) "API_KEY") as [[| | |secret| |]|e];
    try discriminate.
  cbv zeta. destruct (gabiasms _) as [response0|detail0|name]; try discriminate.
  intros [= <- <- <-]. rewrite Hpeq. split; reflexivity.
Qed.

(** C8: for every key, [get_send_result] makes one remote call, with the
    lookup template filled with the API id, a token built from a nonce drawn
    for this call, and the key; a response yields the code that the parser
    reads from it, "0000" or not, and nothing is raised; an
    [xmlrpc_lib.Error] is logged and replaced by SMSModuleException "Bad
    request. Please check api docs"; an exception of another class passes
    through unchanged. *)
Theorem get_send_result_returns_code_verbatim self key st api_id secret :
  dict_get "API_ID" (__settings self) = Some api_id ->
  dict_get "API_KEY" (__settings self) = Some (VStr secret) ->
  let request :=
    REQUEST_SMS_RESULT_FORMAT api_id
      (token_of (get_nonce (nonce_calls st)) secret) key in
  get_send_result self key st =
  (match gabiasms request with
   | RpcResponse response => Ok (get_result_code response)
   | RpcError _ => Raise (SMSModuleException "Bad request. Please check api docs")
   | RpcOtherException name => Raise (OtherError name)
   end,
   nonce_drawn st,
   [EvProxyEnter __API_URL; EvRpc request (gabiasms request)]
   ++ match gabiasms request with
      | RpcError detail => [EvLogError (XmlrpcError detail)]
      | _ => []
      end
   ++ [EvProxyExit]).
Proof.
  intros Hid Hkey request. rewrite get_send_result_eq. unfold getitem.
  rewrite Hid, Hkey. cbv zeta. fold request.
  destruct (gabiasms request); reflexivity.
Qed.

(** C9: the access token is the nonce followed by the MD5 digest of nonce
    and secret key, written as 32 lowercase hexadecimal digits (16 bytes,
    128 bits); the digest part is a function of nonce and secret key alone,
    so any two tokens generated for the same nonce and key are equal. *)
Theorem access_token_is_nonce_then_md5 self st secret :
  dict_get "API_KEY" (__settings self) = Some (VStr secret) ->
  let nonce := get_nonce (nonce_calls st) in
  let digest := MD5.hexdigest (MD5.encode (nonce ++ secret)) in
  __get_md5_access_token self st = (Ok (nonce ++ digest)%string, nonce_drawn st, []) /\
  List.length (MD5.digest (MD5.encode (nonce ++ secret))) = 16%nat /\
  String.length digest = 32%nat /\
  forallb is_lower_hex (list_ascii_of_string digest) = true /\
  (forall self2 st2 token2 st2' evs2,
     dict_get "API_KEY" (__settings self2) = Some (VStr secret) ->
     get_nonce (nonce_calls st2) = nonce ->
     __get_md5_access_token self2 st2 = (Ok token2, st2', evs2) ->
     token2 = (nonce ++ digest)%string).
Proof.
  intros Hkey nonce digest. split; [|split; [|split; [|split]]].
  - rewrite get_md5_access_token_eq. unfold getitem. now rewrite Hkey.
  - apply digest_length.
  - apply hexdigest_length.
  - apply hex_lower.
  - intros self2 st2 token2 st2' evs2 Hkey2 Hn.
    rewrite get_md5_access_token_eq. unfold getitem. rewrite Hkey2, Hn.
    now intros [= <- _ _].
Qed.

(** C3 (amended): the client has one error class of its own,
    SMSModuleException, so the three kinds cannot be told apart by type; what
    tells them apart is the message.  Every failed construction raises
    SMSModuleException with "GABIA_SMS_SETTINGS <key> is required".  When
    [send] or [get_send_result] raises an SMSModuleException, it is a
    validation error, raised before any event with one of the four "Please
    check ..." messages, or a gateway error, raised after a remote call that
    raised an [xmlrpc_lib.Error], with "Bad request. Please check api docs".
    When they raise anything else, it is none of the three kinds: a TypeError
    or KeyError raised without any remote call, or the exception of the
    remote call itself, of a class outside [xmlrpc_lib.Error]. *)
Theorem error_kinds_differ_by_message_only :
  (forall src e,
     __init__ src = Raise e ->
     exists msg, e = SMSModuleException msg /\
                 kind_of_message msg = Some ConfigurationError) /\
  (forall self message receiver title sms_type scheduled_time st e st' evs,
     send self message receiver title sms_type scheduled_time st
     = (Raise e, st', evs) ->
     class_of e = SMSModuleException_class ->
     exists msg, e = SMSModuleException msg /\
       ((evs = [] /\ kind_of_message msg = Some ValidationError) \/
        ((exists request detail, In (EvRpc request (RpcError detail)) evs) /\
         kind_of_message msg = Some GatewayError))) /\
  (forall self key st e st' evs,
     get_send_result self key st = (Raise e, st', evs) ->
     class_of e = SMSModuleException_class ->
     exists msg, e = SMSModuleException msg /\
       (exists request detail, In (EvRpc request (RpcError detail)) evs) /\
       kind_of_message msg = Some GatewayError) /\
  (forall self message receiver title sms_type scheduled_time st e st' evs,
     send self message receiver title sms_type scheduled_time st
     = (Raise e, st', evs) ->
     class_of e <> SMSModuleException_class ->
     (((exists d, e = TypeError d) \/ (exists k, e = KeyError k)) /\
      filter is_rpc evs = []) \/
     (exists request name,
        e = OtherError name /\
        In (EvRpc request (RpcOtherException name)) evs)) /\
  (forall self key st e st' evs,
     get_send_result self key st = (Raise e, st', evs) ->
     class_of e <> SMSModuleException_class ->
     (((exists d, e = TypeError d) \/ (exists k, e = KeyError k)) /\
      filter is_rpc evs = []) \/
     (exists request name,
        e = OtherError name /\
        In (EvRpc request (RpcOtherException name)) evs)).
Proof.
  split; [|split; [|split; [|split]]].
  - intros src e. unfold __init__.
    destruct (__validate_settings _) as [[]|e'] eqn:Hv; [discriminate|].
    intros [= <-]. apply validate_settings_raise in Hv as (k & v & _ & _ & ->).
    eexists. split; [reflexivity | apply kind_of_missing_setting].
  - intros self message receiver title sms_type scheduled_time st e st' evs.
    unfold send. destruct (negb (py_in sms_type KNOWN_SMS_TYPES)).
    { intros [= <- <- <-] _. eexists. split; [reflexivity|]. left. now split. }
    unfold bind.
    destruct (__get_sms_param _ _ _ _ _ _ _) as [[[p|e1] st1] evs1] eqn:Hp;
      apply get_sms_param_inv in Hp as [-> Hp].
    2:{ intros [= <- <- <-] Hc.
        destruct Hp as [_ [(msg & -> & Hk)|[(d & ->)|(k & ->)]]];
          try discriminate Hc. eauto 6. }
    clear Hp. rewrite send_sms_eq.
    destruct (getitem (__settings self) "API_ID") as [api_id|e1] eqn:Hid.
    2:{ intros [= <- <- <-] Hc. unfold getitem in Hid.
        destruct (dict_get _ _); [discriminate|]. injection Hid as <-.
        discriminate Hc. }
    destruct (getitem (__settings self) "API_KEY") as [[| | |secret| |]|e1] eqn:Hkey;
      try (intros [= <- <- <-] Hc; discriminate Hc).
    2:{ intros [= <- <- <-] Hc. unfold getitem in Hkey.
        destruct (dict_get _ _); [discriminate|]. injection Hkey as <-.
        discriminate Hc. }
    cbv zeta. destruct (gabiasms _) as [response0|detail0|name];
      intros [= <- <- <-] Hc; try discriminate Hc.
    eexists. split; [reflexivity|]. right. split; [|reflexivity].
    do 2 eexists. cbn. eauto.
  - intros self key st e st' evs. rewrite get_send_result_eq.
    destruct (getitem (__settings self) "API_ID") as [api_id|e1] eqn:Hid.
    2:{ intros [= <- <- <-] Hc. unfold getitem in Hid.
        destruct (dict_get _ _); [discriminate|]. injection Hid as <-.
        discriminate Hc. }
    destruct (getitem (__settings self) "API_KEY") as [[| | |secret| |]|e1] eqn:Hkey;
      try (intros [= <- <- <-] Hc; discriminate Hc).
    2:{ intros [= <- <- <-] Hc. unfold getitem in Hkey.
        destruct (dict_get _ _); [discriminate|]. injection Hkey as <-.
        discriminate Hc. }
    cbv zeta. destruct (gabiasms _) as [response0|detail0|name];
      intros [= <- <- <-] Hc; try discriminate Hc.
    eexists. split; [reflexivity|]. split; [|reflexivity].
    do 2 eexists. cbn. eauto.
  - intros self message receiver title sms_type scheduled_time st e st' evs.
    unfold send. destruct (negb (py_in sms_type KNOWN_SMS_TYPES)).
    { intros [= <- <- <-] Hc. now contradiction Hc. }
    unfold bind.
    destruct (__get_sms_param _ _ _ _ _ _ _) as [[[p|e1] st1] evs1] eqn:Hp;
      apply get_sms_param_inv in Hp as [-> Hp].
    2:{ intros [= <- <- <-] Hc.
        destruct Hp as [_ [(msg & -> & Hk)|[(d & ->)|(k & ->)]]];
          [now contradiction Hc | left; eauto | left; eauto]. }
    clear Hp. rewrite send_sms_eq.
    destruct (getitem (__settings self) "API_ID") as [api_id|e1] eqn:Hid.
    2:{ intros [= <- <- <-] Hc. unfold getitem in Hid.
        destruct (dict_get _ _); [discriminate|]. injection Hid as <-.
        left. cbn. eauto. }
    destruct (getitem (__settings self) "API_KEY") as [[| | |secret| |]|e1] eqn:Hkey;
      try (intros [= <- <- <-] Hc; left; cbn; eauto).
    2:{ unfold getitem in Hkey.
        destruct (dict_get _ _); [discriminate|]. injection Hkey as <-.
        eauto. }
    cbv zeta. destruct (gabiasms _) as [response0|detail0|name];
      intros [= <- <- <-] Hc; [now contradiction Hc|].
    right. do 2 eexists. split; [reflexivity|]. cbn. eauto.
  - intros self key st e st' evs. rewrite get_send_result_eq.
    destruct (getitem (__settings self) "API_ID") as [api_id|e1] eqn:Hid.
    2:{ intros [= <- <- <-] Hc. unfold getitem in Hid.
        destruct (dict_get _ _); [discriminate|]. injection Hid as <-.
        left. cbn. eauto. }
    destruct (getitem (__settings self) "API_KEY") as [[| | |secret| |]|e1] eqn:Hkey;
      try (intros [= <- <- <-] Hc; left; cbn; eauto).
    2:{ unfold getitem in Hkey.
        destruct (dict_get _ _); [discriminate|]. injection Hkey as <-.
        eauto. }
    cbv zeta. destruct (gabiasms _) as [response0|detail0|name];
      intros [= <- <- <-] Hc; [now contradiction Hc|].
    right. do 2 eexists. split; [reflexivity|]. cbn. eauto.
Qed.

End ClientProperties.

(** ** The claims on the test doubles *)

Lemma send_rejects_unknown_sms_type_witness :
  @send Fake.helpers Fake.world_accepting Fake.client (VStr "") VNone "SEND"
        (VStr "mms") "0" Fake.st0
  = (Raise (SMSModuleException "Please check sms type!"), Fake.st0, []).
Proof.
  apply (@send_rejects_unknown_sms_type Fake.helpers Fake.world_accepting).
  intros s Hs. cbn in Hs.
  destruct Hs as [<-|[<-|[<-|[<-|[]]]]]; discriminate.
Defined.

(** C2: the code lets through receivers that do not have the phone-number
    shape.  "01|1234567" has a bar where the shape asks for one of 0, 1, 6, 7,
    8, 9, and "010123456789" has nine digits after the prefix; for both the
    request is built and the gateway is called, whatever gateway it is. *)
Theorem send_accepts_malformed_receivers (helpers : Helpers) (world : World)
    (st : world_state) :
  phone_number_shape "01|1234567" = false /\
  phone_number_shape "010123456789" = false /\
  (exists request,
     In (EvRpc request (gabiasms request))
        (snd (send Fake.client (VStr "hello") (VStr "01|1234567") "SEND"
                   (VStr "sms") "0" st))) /\
  (exists request,
     In (EvRpc request (gabiasms request))
        (snd (send Fake.client (VStr "hello") (VStr "010123456789") "SEND"
                   (VStr "lms") "0" st))).
Proof.
  split; [reflexivity|]. split; [reflexivity|].
  split.
  - unfold send. cbn [py_in existsb String.eqb Ascii.eqb Bool.eqb negb orb
                       KNOWN_SMS_TYPES].
    unfold bind at 1.
    change (__get_sms_param Fake.client (VStr "hello") (VStr "01|1234567") "SEND"
              "0" (VStr "sms") st)
      with (Ok (mkParam (VStr "0100000000") (VStr "sms") (escape_xml_string "hello")
                        (VStr "01|1234567") (escape_xml_string "SEND") "0"
                        (py_int (now_timestamp (clock_calls st)))),
            mkWorld (nonce_calls st) (S (clock_calls st)), @nil event).
    cbv beta iota. rewrite send_sms_eq. cbn [getitem dict_get Fake.client __settings
      Fake.valid_settings String.eqb Ascii.eqb Bool.eqb]. cbv zeta.
    match goal with |- context [gabiasms ?r] => exists r end.
    destruct (gabiasms _); cbn; auto.
  - unfold send. cbn [py_in existsb String.eqb Ascii.eqb Bool.eqb negb orb
                       KNOWN_SMS_TYPES].
    unfold bind at 1.
    change (__get_sms_param Fake.client (VStr "hello") (VStr "010123456789") "SEND"
              "0" (VStr "lms") st)
      with (Ok (mkParam (VStr "0100000000") (VStr "lms") (escape_xml_string "hello")
                        (VStr "010123456789") (escape_xml_string "SEND") "0"
                        (py_int (now_timestamp (clock_calls st)))),
            mkWorld (nonce_calls st) (S (clock_calls st)), @nil event).
    cbv beta iota. rewrite send_sms_eq. cbn [getitem dict_get Fake.client __settings
      Fake.valid_settings String.eqb Ascii.eqb Bool.eqb]. cbv zeta.
    match goal with |- context [gabiasms ?r] => exists r end.
    destruct (gabiasms _); cbn; auto.
Qed.

Lemma send_returns_key_whatever_result_code_witness :
  exists p,
    key p = 1700000000%Z /\
    fst (fst Fake.rejected_send) = Ok (VInt (key p)) /\
    snd Fake.rejected_send
    = [EvProxyEnter __API_URL; EvBeforeSend p;
       EvRpc "<sms>nonce0680fb11e03e9ce03aa30d5f165661bef|sms|01012345678|hello</sms>"
             (RpcResponse "0001 FAIL")]
      ++ [EvLogDebug "0001"] ++ [EvPostSent p; EvProxyExit].
Proof.
  apply (@send_returns_key_whatever_result_code Fake.helpers Fake.world_rejecting
           Fake.client (VStr "hello") (VStr "01012345678") "SEND" (VStr "sms") "0"
           Fake.st0 (fst (fst Fake.rejected_send)) (snd (fst Fake.rejected_send))
           (snd Fake.rejected_send)
           "<sms>nonce0680fb11e03e9ce03aa30d5f165661bef|sms|01012345678|hello</sms>"
           "0001 FAIL").
  - vm_compute. reflexivity.
  - vm_compute. right. right. left. reflexivity.
Defined.


(** C7, as the specification states it, fails: the key that a successful
    send returns is the integer 1700000000, not a string. *)
Lemma send_returns_integer_not_string :
  fst (fst Fake.accepted_send) = Ok (VInt 1700000000) /\
  forall s, fst (fst Fake.accepted_send) <> Ok (VStr s).
Proof.
  split; [reflexivity|]. intros s. vm_compute. discriminate.
Qed.

Lemma send_returns_integer_clock_seconds_witness :
  VInt 1700000000 = VInt (py_int (Fake.clock 0)) /\
  clock_calls (snd (fst Fake.accepted_send)) = 1%nat.
Proof.
  apply (@send_returns_integer_clock_seconds Fake.helpers Fake.world_accepting
           Fake.client (VStr "hello") (VStr "01012345678") "SEND" (VStr "sms") "0"
           Fake.st0 (VInt 1700000000) (snd (fst Fake.accepted_send))
           (snd Fake.accepted_send)).
  vm_compute. reflexivity.
Defined.

Lemma get_send_result_returns_code_verbatim_witness :
  @get_send_result Fake.helpers Fake.world_rejecting Fake.client (VStr "123") Fake.st0
  = (Ok "0001", mkWorld 1 0,
     [EvProxyEnter __API_URL;
      EvRpc "<result>id1|nonce0680fb11e03e9ce03aa30d5f165661bef|123</result>"
            (RpcResponse "0001 FAIL");
      EvProxyExit]).
Proof.
  rewrite (@get_send_result_returns_code_verbatim Fake.helpers Fake.world_rejecting
             Fake.client (VStr "123") Fake.st0 (VStr "id1") "key1");
    reflexivity.
Defined.

Lemma access_token_is_nonce_then_md5_witness :
  @__get_md5_access_token Fake.world_accepting Fake.client Fake.st0
  = (Ok "nonce0680fb11e03e9ce03aa30d5f165661bef", mkWorld 1 0, []).
Proof.
  destruct (@access_token_is_nonce_then_md5 Fake.world_accepting Fake.client
              Fake.st0 "key1" eq_refl) as [H _].
  rewrite H. vm_compute. reflexivity.
Defined.

(** C3, as the specification states it, fails twice over.  A failed
    construction, a send refused by validation and a lookup that met a
    transport fault raise exceptions of one and the same class, so no test of
    the class sorts them into the three kinds.  And a failing operation need
    not raise any of the three: a bulk send whose receiver is None raises a
    TypeError before any event, and a send whose remote call is refused
    raises the connection error itself. *)
Lemma error_kinds_share_one_class :
  (exists e1 e2 e3,
     __init__ None = Raise e1 /\
     fst (fst (@send Fake.helpers Fake.world_faulty Fake.client (VStr "") (VStr "01012345678")
                     "SEND" (VStr "sms") "0" Fake.st0)) = Raise e2 /\
     fst (fst (@get_send_result Fake.helpers Fake.world_faulty Fake.client
                                (VStr "123") Fake.st0)) = Raise e3 /\
     class_of e1 = class_of e2 /\ class_of e2 = class_of e3 /\
     ~ exists kind_of_class : exn_class -> error_kind,
         kind_of_class (class_of e1) = ConfigurationError /\
         kind_of_class (class_of e2) = ValidationError /\
         kind_of_class (class_of e3) = GatewayError) /\
  (exists d,
     @send Fake.helpers Fake.world_accepting Fake.client (VStr "hi") VNone "SEND"
           (VStr "multi_sms") "0" Fake.st0
     = (Raise (TypeError d), Fake.st0, [])) /\
  fst (fst (@send Fake.helpers Scenario.world_unreachable Fake.client
                  (VStr "hello") (VStr "01012345678") "SEND" (VStr "sms") "0"
                  Fake.st0))
  = Raise (OtherError "ConnectionRefusedError").
Proof.
  split; [|split].
  - do 3 eexists. repeat (split; [reflexivity|]).
    intros (f & H1 & H2 & _). cbn in H1, H2. congruence.
  - eexists. reflexivity.
  - reflexivity.
Qed.

Lemma error_kinds_differ_by_message_only_witness :
  (exists msg, __init__ None = Raise (SMSModuleException msg) /\
               kind_of_message msg = Some ConfigurationError) /\
  (exists msg,
     fst (fst (@send Fake.helpers Fake.world_faulty Fake.client (VStr "")
                     (VStr "01012345678") "SEND" (VStr "sms") "0" Fake.st0))
     = Raise (SMSModuleException msg) /\
     kind_of_message msg = Some ValidationError) /\
  (exists msg,
     fst (fst Fake.faulted_send) = Raise (SMSModuleException msg) /\
     kind_of_message msg = Some GatewayError).
Proof.
  destruct (@error_kinds_differ_by_message_only Fake.helpers Fake.world_faulty)
    as (Hcfg & Hsend & _).
  split; [|split].
  - destruct (Hcfg None (SMSModuleException (MISSING_SETTING "API_ID")) eq_refl)
      as (msg & [= <-] & Hk).
    eexists. split; [reflexivity | exact Hk].
  - destruct (Hsend Fake.client (VStr "") (VStr "01012345678") "SEND" (VStr "sms")
                    "0" Fake.st0
                    (SMSModuleException "Please check required parameters!")
                    Fake.st0 [] eq_refl eq_refl)
      as (msg & [= <-] & [[_ Hk]|[_ Hk]]); [|discriminate Hk].
    eexists. split; [reflexivity | exact Hk].
  - destruct (Hsend Fake.client (VStr "hello") (VStr "01012345678") "SEND"
                    (VStr "sms") "0" Fake.st0
                    (SMSModuleException "Bad request. Please check api docs")
                    (snd (fst Fake.faulted_send)) (snd Fake.faulted_send)
                    eq_refl eq_refl)
      as (msg & [= <-] & [[He _]|[_ Hk]]); [discriminate He|].
    eexists. split; [reflexivity | exact Hk].
Defined.

(** * Further properties of the code *)

(** ** Settings resolution *)

Lemma dict_get_missing_defaults d k :
  dict_get k d = None ->
  dict_get k (missing_defaults d) = if is_required k then Some VNone else None.
Proof.
  intros Hk. unfold missing_defaults, is_required, REQUIRED_SETTINGS.
  cbn [filter existsb].
  destruct (String.eqb_spec k "API_ID") as [->|H1].
  { rewrite Hk. cbn [map dict_get]. now rewrite String.eqb_refl. }
  destruct (String.eqb_spec k "API_KEY") as [->|H2].
  { rewrite Hk. destruct (dict_get "API_ID" d); cbn; reflexivity. }
  destruct (String.eqb_spec k "SENDER") as [->|H3].
  { rewrite Hk.
    destruct (dict_get "API_ID" d), (dict_get "API_KEY" d); cbn; reflexivity. }
  cbn [orb].
  assert (E1 : ("API_ID" =? k) = false) by (apply String.eqb_neq; congruence).
  assert (E2 : ("API_KEY" =? k) = false) by (apply String.eqb_neq; congruence).
  assert (E3 : ("SENDER" =? k) = false) by (apply String.eqb_neq; congruence).
  destruct (dict_get "API_ID" d), (dict_get "API_KEY" d), (dict_get "SENDER" d);
    cbn [map dict_get]; rewrite ?E1, ?E2, ?E3; reflexivity.
Qed.

(** X1: [__get_module_settings] keeps the configured mapping as it is and
    appends entries only for required keys, each with [None]; looking a key
    up afterwards gives the configured value when there is one, [None] for a
    required key that was not configured, and nothing for any other key. *)
Theorem get_module_settings_lookup src k :
  (exists added,
     __get_module_settings src = configured src ++ added /\
     forall k' v', In (k', v') added ->
                   In k' REQUIRED_SETTINGS /\ v' = VNone /\
                   dict_get k' (configured src) = None) /\
  dict_get k (__get_module_settings src) =
  match dict_get k (configured src) with
  | Some v => Some v
  | None => if is_required k then Some VNone else None
  end.
Proof.
  rewrite get_module_settings_eq. fold (configured src). cbv zeta. split.
  - exists (missing_defaults (configured src)). split; [reflexivity|].
    intros k' v' Hin. apply missing_defaults_In in Hin as (H1 & H2 & H3). auto.
  - rewrite dict_get_app. destruct (dict_get k (configured src)) eqn:Hk;
      [reflexivity|]. now apply dict_get_missing_defaults.
Qed.

(** X2: resolving the settings a second time, on the mapping that the first
    resolution left behind, changes nothing. *)
Theorem get_module_settings_idempotent src :
  __get_module_settings (Some (__get_module_settings src))
  = __get_module_settings src.
Proof.
  rewrite (get_module_settings_eq (Some _)). cbv zeta.
  set (d' := __get_module_settings src).
  assert (Hall : forall k, In k REQUIRED_SETTINGS -> dict_get k d' <> None).
  { intros k Hk. unfold d'. rewrite get_module_settings_eq.
    fold (configured src). cbv zeta. rewrite dict_get_app.
    destruct (dict_get k (configured src)) eqn:Hg; [discriminate|].
    rewrite (dict_get_missing_defaults _ _ Hg).
    apply is_required_In in Hk. rewrite Hk. discriminate. }
  unfold missing_defaults, REQUIRED_SETTINGS in *. cbn [filter].
  destruct (dict_get "API_ID" d') eqn:H1;
    [|exfalso; apply (Hall "API_ID"); cbn; auto].
  destruct (dict_get "API_KEY" d') eqn:H2;
    [|exfalso; apply (Hall "API_KEY"); cbn; auto].
  destruct (dict_get "SENDER" d') eqn:H3;
    [|exfalso; apply (Hall "SENDER"); cbn; auto].
  cbn. apply app_nil_r.
Qed.

(** X3: [__validate_settings] fails exactly when some entry has a false
    value, and the error then names the first such entry in the order of the
    mapping. *)
Theorem validate_settings_names_first_falsy d e :
  __validate_settings d = Raise e <->
  exists pre k v post,
    d = pre ++ (k, v) :: post /\
    all_truthy pre = true /\ truthy v = false /\
    e = SMSModuleException (MISSING_SETTING k).
Proof.
  split.
  - induction d as [|[k v] d IH]; cbn; [discriminate|].
    destruct (truthy v) eqn:Hv; cbn.
    + intros H. destruct (IH H) as (pre & k' & v' & post & -> & Hp & Hf & ->).
      exists ((k, v) :: pre), k', v', post.
      split; [reflexivity|]. split; [|auto].
      unfold all_truthy in *. cbn [forallb snd]. now rewrite Hv.
    + intros [= <-]. exists [], k, v, d. auto.
  - intros (pre & k & v & post & -> & Hp & Hf & ->).
    induction pre as [|[k' v'] pre IH]; cbn.
    + now rewrite Hf.
    + cbn in Hp. apply andb_prop in Hp as [Hv' Hp]. rewrite Hv'. cbn. auto.
Qed.

Lemma validate_settings_ok_iff d :
  __validate_settings d = Ok tt <-> all_truthy d = true.
Proof.
  induction d as [|[k v] d IH]; cbn; [tauto|].
  destruct (truthy v); cbn; [exact IH|]. split; discriminate.
Qed.

Lemma missing_defaults_nil_iff d :
  missing_defaults d = [] <-> forallb (has_key d) REQUIRED_SETTINGS = true.
Proof.
  unfold missing_defaults, has_key, REQUIRED_SETTINGS. cbn [filter forallb].
  destruct (dict_get "API_ID" d), (dict_get "API_KEY" d), (dict_get "SENDER" d);
    cbn; split; intros H; try reflexivity; discriminate.
Qed.

Lemma all_truthy_app a b : all_truthy (a ++ b) = all_truthy a && all_truthy b.
Proof. apply forallb_app. Qed.

Lemma all_truthy_missing_defaults d :
  all_truthy (missing_defaults d) = true -> missing_defaults d = [].
Proof.
  unfold missing_defaults, REQUIRED_SETTINGS. cbn [filter].
  destruct (dict_get "API_ID" d), (dict_get "API_KEY" d), (dict_get "SENDER" d);
    cbn; intros H; try reflexivity; discriminate.
Qed.

(** X4: construction succeeds exactly when the mapping is configured with
    all three required keys and every one of its entries, required or not,
    has a true value; the object then holds the mapping unchanged. *)
Theorem init_ok_iff src self :
  __init__ src = Ok self <->
  forallb (has_key (configured src)) REQUIRED_SETTINGS = true /\
  all_truthy (configured src) = true /\
  self = mkGabiaSMS (configured src).
Proof.
  unfold __init__. rewrite get_module_settings_eq. fold (configured src).
  cbv zeta. set (d := configured src). split.
  - destruct (__validate_settings _) as [[]|e] eqn:Hv; [|discriminate].
    apply validate_settings_ok_iff in Hv. rewrite all_truthy_app in Hv.
    apply andb_prop in Hv as [Hd Hm].
    apply all_truthy_missing_defaults in Hm.
    intros [= <-]. rewrite Hm, app_nil_r.
    split; [now apply missing_defaults_nil_iff | auto].
  - intros (Hk & Ht & ->). apply missing_defaults_nil_iff in Hk.
    rewrite Hk, app_nil_r. apply validate_settings_ok_iff in Ht.
    now rewrite Ht.
Qed.

(** X5: when no configured entry has a false value but a required key is
    absent, construction fails and names the first absent key in the order
    API_ID, API_KEY, SENDER. *)
Theorem init_names_first_missing src k :
  all_truthy (configured src) = true ->
  first_missing (configured src) = Some k ->
  __init__ src = Raise (SMSModuleException (MISSING_SETTING k)).
Proof.
  intros Ht Hk. unfold __init__. rewrite get_module_settings_eq.
  fold (configured src). cbv zeta. set (d := configured src) in *.
  rewrite validate_settings_app.
  apply validate_settings_ok_iff in Ht. rewrite Ht.
  unfold first_missing, has_key, missing_defaults, REQUIRED_SETTINGS in *.
  cbn [find filter] in *.
  destruct (dict_get "API_ID" d); cbn in *;
    [|injection Hk as <-; reflexivity].
  destruct (dict_get "API_KEY" d); cbn in *;
    [|injection Hk as <-; reflexivity].
  destruct (dict_get "SENDER" d); cbn in *;
    [discriminate|injection Hk as <-; reflexivity].
Qed.

Lemma init_names_first_missing_witness :
  __init__ (Some [("SENDER", VStr "0100000000"); ("API_ID", VStr "id1")])
  = Raise (SMSModuleException "GABIA_SMS_SETTINGS API_KEY is required").
Proof.
  apply (init_names_first_missing
           (Some [("SENDER", VStr "0100000000"); ("API_ID", VStr "id1")])
           "API_KEY"); reflexivity.
Defined.

(** ** The phone-number pattern *)

Lemma search_split p s :
  Re.search p s = true <->
  exists pre post, s = (pre ++ post)%string /\ Re.match_here p post = true.
Proof.
  induction s as [|a s IH]; cbn [Re.search].
  - rewrite orb_false_r. split.
    + intros H. exists EmptyString, EmptyString. auto.
    + intros (pre & post & Hs & H). destruct pre; [|discriminate].
      cbn in Hs. now subst post.
  - rewrite orb_true_iff, IH. split.
    + intros [H|(pre & post & -> & H)].
      * exists EmptyString, (String a s). auto.
      * exists (String a pre), post. auto.
    + intros (pre & post & Hs & H). destruct pre as [|b pre]; cbn in Hs.
      * left. now subst post.
      * injection Hs as _ ->. right. eauto.
Qed.

Lemma phone_class_In c :
  Re.cls_mem (Re.OneOf ["0"; "|"; "1"; "|"; "6"; "|"; "7"; "|"; "8"; "|"; "9"]%char) c
  = true <->
  In c ["0"; "1"; "6"; "7"; "8"; "9"; "|"]%char.
Proof.
  cbn [Re.cls_mem]. rewrite existsb_exists. split.
  - intros (x & Hin & Heq). apply Ascii.eqb_eq in Heq. subst x.
    cbn in Hin |- *. tauto.
  - intros Hin. exists c. split; [|apply Ascii.eqb_refl].
    cbn in Hin |- *. tauto.
Qed.

Ltac split_andb H :=
  repeat match type of H with
         | (_ && _)%bool = true =>
             let H1 := fresh "Hc" in
             apply andb_prop in H as [H1 H]
         end.

Lemma match_here_phone s :
  Re.match_here PHONE_NUMBER_REGEX s = true <->
  exists c ds post,
    s = String "0" (String "1" (String c (ds ++ post))) /\
    In c ["0"; "1"; "6"; "7"; "8"; "9"; "|"]%char /\
    String.length ds = 7%nat /\
    forallb is_digit (list_ascii_of_string ds) = true.
Proof.
  unfold PHONE_NUMBER_REGEX.
  cbn [Re.match_here Re.match_exactly Re.match_upto Re.it_cls Re.it_min
       Re.it_max Nat.sub].
  split.
  - intros H.
    do 10 (destruct s as [|? s];
           [cbn [Re.match_exactly] in H; rewrite ?andb_false_r in H;
            discriminate H|]).
    cbn [Re.match_exactly] in H. split_andb H.
    cbn [Re.cls_mem] in Hc, Hc0.
    apply Ascii.eqb_eq in Hc, Hc0. subst.
    apply phone_class_In in Hc1.
    exists a1,
      (String a2 (String a3 (String a4 (String a5 (String a6 (String a7
        (String a8 EmptyString))))))), s.
    split; [reflexivity|]. split; [exact Hc1|]. split; [reflexivity|].
    cbn [list_ascii_of_string forallb].
    change (Re.cls_mem (Re.Range "0" "9")) with is_digit in *.
    now rewrite Hc2, Hc3, Hc4, Hc5, Hc6, Hc7, Hc8.
  - intros (c & ds & post & -> & Hc & Hl & Hd).
    do 7 (destruct ds as [|? ds]; [discriminate Hl|]).
    destruct ds; [|discriminate Hl].
    cbn [list_ascii_of_string forallb] in Hd. split_andb Hd.
    cbn [Re.match_exactly append].
    apply phone_class_In in Hc. rewrite Hc.
    change (Re.cls_mem (Re.Range "0" "9")) with is_digit.
    rewrite Hc0, Hc1, Hc2, Hc3, Hc4, Hc5, Hc6. cbn [Re.cls_mem].
    rewrite !Ascii.eqb_refl. cbn [andb].
    destruct post; cbn [Re.match_upto]; [reflexivity|].
    apply orb_true_r.
Qed.

(** X6: the validator's search with [PHONE_NUMBER_REGEX] accepts exactly
    the strings that contain, at some position, the characters 0 and 1, then
    one of 0, 1, 6, 7, 8, 9 or a vertical bar, then seven digits; what comes
    before and after is arbitrary. *)
Theorem phone_search_iff s :
  Re.search PHONE_NUMBER_REGEX s = true <->
  exists pre c ds post,
    s = (pre ++ String "0" (String "1" (String c (ds ++ post))))%string /\
    In c ["0"; "1"; "6"; "7"; "8"; "9"; "|"]%char /\
    String.length ds = 7%nat /\
    forallb is_digit (list_ascii_of_string ds) = true.
Proof.
  rewrite search_split. split.
  - intros (pre & post & -> & H). apply match_here_phone in H
      as (c & ds & post' & -> & Hc & Hl & Hd).
    exists pre, c, ds, post'. auto.
  - intros (pre & c & ds & post & -> & Hc & Hl & Hd).
    exists pre, (String "0" (String "1" (String c (ds ++ post)))).
    split; [reflexivity|]. apply match_here_phone. exists c, ds, post. auto.
Qed.

Ltac split_all_andb :=
  repeat match goal with
         | H : (_ && _)%bool = true |- _ =>
             let H1 := fresh "Hb" in
             let H2 := fresh "Hb" in
             apply andb_prop in H as [H1 H2]
         end.

Lemma phone_number_shape_search r :
  phone_number_shape r = true -> Re.search PHONE_NUMBER_REGEX r = true.
Proof.
  intros H. apply search_split. exists EmptyString, r.
  split; [reflexivity|]. apply match_here_phone.
  unfold phone_number_shape in H.
  destruct r as [|a0 [|a1 [|a2 ds]]]; try discriminate H.
  cbn [list_ascii_of_string] in H. split_all_andb.
  match goal with H : Ascii.eqb a0 _ = true |- _ => apply Ascii.eqb_eq in H end.
  match goal with H : Ascii.eqb a1 _ = true |- _ => apply Ascii.eqb_eq in H end.
  subst a0 a1.
  match goal with
  | H : existsb _ _ = true |- _ =>
      apply existsb_exists in H as (x & Hin & Heq);
      apply Ascii.eqb_eq in Heq; subst x
  end.
  match goal with
  | H : forallb is_digit _ = true, L : (_ || _)%bool = true |- _ =>
      rename H into Hd; rename L into Hl
  end.
  do 7 (destruct ds as [|? ds]; [discriminate Hl|]).
  cbn [list_ascii_of_string forallb] in Hd. split_all_andb.
  exists a2,
    (String a (String a0 (String a1 (String a3 (String a4 (String a5
      (String a6 EmptyString))))))), ds.
  split; [reflexivity|]. split; [cbn in Hin |- *; tauto|].
  split; [reflexivity|].
  cbn [list_ascii_of_string forallb].
  repeat match goal with H : is_digit _ = true |- _ => rewrite H; clear H end.
  reflexivity.
Qed.

(** X7: a non-empty message and a receiver of the phone-number shape (01,
    one of 0, 1, 6, 7, 8, 9, then seven or eight digits) always pass the
    single validator. *)
Theorem well_shaped_number_passes_validation m r :
  m <> EmptyString ->
  phone_number_shape r = true ->
  __validate_required_params (VStr m) (VStr r) = Ok tt.
Proof.
  intros Hm Hr. pose proof (phone_number_shape_search r Hr) as Hs.
  unfold __validate_required_params.
  destruct m as [|am m]; [congruence|].
  destruct r as [|ar r]; [discriminate Hr|].
  cbn [truthy String.eqb negb andb isinstance_str orb].
  now rewrite Hs.
Qed.

Lemma well_shaped_number_passes_validation_witness :
  __validate_required_params (VStr "hello") (VStr "0161234567") = Ok tt.
Proof.
  apply (well_shaped_number_passes_validation "hello" "0161234567");
    [discriminate | reflexivity].
Defined.

(** ** Validation and request construction *)

Lemma py_in_iff v t :
  py_in v t = true <-> exists s, v = VStr s /\ In s t.
Proof.
  split.
  - destruct v as [| | |s| |]; try discriminate. cbn.
    rewrite existsb_exists. intros (x & Hin & Heq).
    apply String.eqb_eq in Heq. subst x. eauto.
  - intros (s & -> & Hin). cbn. apply existsb_exists. exists s.
    split; [exact Hin | apply String.eqb_refl].
Qed.

Lemma phone_search_empty : Re.search PHONE_NUMBER_REGEX EmptyString = false.
Proof. reflexivity. Qed.

Lemma validate_required_params_accepts m r :
  m <> EmptyString ->
  Re.search PHONE_NUMBER_REGEX r = true ->
  __validate_required_params (VStr m) (VStr r) = Ok tt.
Proof.
  intros Hm Hs. unfold __validate_required_params.
  destruct m as [|am m]; [congruence|].
  destruct r as [|ar r]; [rewrite phone_search_empty in Hs; discriminate|].
  cbn [truthy String.eqb negb andb isinstance_str orb]. now rewrite Hs.
Qed.

(** X8: the single validator accepts exactly a message that is a non-empty
    string together with a receiver that is a string in which the pattern
    occurs; every other pair of values is refused. *)
Theorem validate_required_params_ok_iff message receiver :
  __validate_required_params message receiver = Ok tt <->
  exists m r,
    message = VStr m /\ receiver = VStr r /\
    m <> EmptyString /\ Re.search PHONE_NUMBER_REGEX r = true.
Proof.
  split.
  - intros H. destruct (validate_required_params_ok _ _ H) as (m & r & -> & -> & Hs).
    exists m, r. repeat split; auto.
    intros ->. discriminate H.
  - intros (m & r & -> & -> & Hm & Hs).
    now apply validate_required_params_accepts.
Qed.

Section SendProperties.
Context {helpers : Helpers} {world : World}.

Lemma get_sms_param_ok self m r title scheduled_time ty sndr st :
  m <> EmptyString ->
  Re.search PHONE_NUMBER_REGEX r = true ->
  In ty SINGLE_SMS_TYPES ->
  dict_get "SENDER" (__settings self) = Some sndr ->
  __get_sms_param self (VStr m) (VStr r) title scheduled_time (VStr ty) st
  = (Ok (mkParam sndr (VStr ty) (escape_xml_string m) (VStr r)
                 (escape_xml_string title) scheduled_time
                 (py_int (now_timestamp (clock_calls st)))),
     mkWorld (nonce_calls st) (S (clock_calls st)), []).
Proof.
  intros Hm Hs Hty Hsnd. unfold __get_sms_param.
  assert (Hin : py_in (VStr ty) SINGLE_SMS_TYPES = true)
    by (apply py_in_iff; eauto).
  rewrite Hin.
  assert (Hv : __validate_required_params (VStr m) (VStr r) = Ok tt)
    by now apply validate_required_params_accepts.
  unfold bind, lift, ret, read_clock, getitem. rewrite Hv, Hsnd. reflexivity.
Qed.

Lemma get_sms_param_ok_inv self message receiver title scheduled_time sms_type
    st p st' evs :
  __get_sms_param self message receiver title scheduled_time sms_type st
  = (Ok p, st', evs) ->
  exists m r ty sndr,
    message = VStr m /\ receiver = VStr r /\ sms_type = VStr ty /\
    m <> EmptyString /\ Re.search PHONE_NUMBER_REGEX r = true /\
    In ty SINGLE_SMS_TYPES /\
    dict_get "SENDER" (__settings self) = Some sndr /\
    p = mkParam sndr (VStr ty) (escape_xml_string m) (VStr r)
                (escape_xml_string title) scheduled_time
                (py_int (now_timestamp (clock_calls st))) /\
    st' = mkWorld (nonce_calls st) (S (clock_calls st)) /\ evs = [].
Proof.
  intros H. pose proof (get_sms_param_inv _ _ _ _ _ _ _ _ _ _ H) as [-> Hp].
  destruct Hp as (Hin & -> & m & r & sndr & -> & -> & Hs & Hg & ->).
  apply py_in_iff in Hin as (ty & -> & Hty).
  exists m, r, ty, sndr. repeat split; auto.
  - intros ->. unfold __get_sms_param in H.
    assert (Hin : py_in (VStr ty) SINGLE_SMS_TYPES = true)
      by (apply py_in_iff; eauto).
    rewrite Hin in H. cbn in H. discriminate H.
  - unfold getitem in Hg. destruct (dict_get _ _); [|discriminate].
    now injection Hg as ->.
Qed.

Lemma send_request_single api_id token sndr ty m r t sched k :
  In ty SINGLE_SMS_TYPES ->
  send_request api_id token (mkParam sndr (VStr ty) m r t sched k)
  = REQUEST_SMS_XML_FORMAT (mkFields api_id token (VStr ty) k t m sndr r sched).
Proof.
  intros Hty. unfold send_request. cbn [sms_type].
  assert (Hin : py_in (VStr ty) SINGLE_SMS_TYPES = true)
    by (apply py_in_iff; eauto).
  now rewrite Hin.
Qed.

(** X9: on valid input, that is a non-empty message, a receiver in which
    the pattern occurs, a single sms_type and the three settings with a
    string API key, [send] reads the clock once, draws one nonce, runs the
    before-send hook, makes one remote call with the single-send template
    filled with the API id, the token, the sms_type, the key, the escaped
    title and message, the sender, the receiver and the scheduled time as
    given, and ends according to what the call does. *)
Theorem send_on_valid_input self m r title scheduled_time ty api_id secret sndr st :
  m <> EmptyString ->
  Re.search PHONE_NUMBER_REGEX r = true ->
  In ty SINGLE_SMS_TYPES ->
  dict_get "API_ID" (__settings self) = Some api_id ->
  dict_get "API_KEY" (__settings self) = Some (VStr secret) ->
  dict_get "SENDER" (__settings self) = Some sndr ->
  let k := py_int (now_timestamp (clock_calls st)) in
  let p := mkParam sndr (VStr ty) (escape_xml_string m) (VStr r)
                   (escape_xml_string title) scheduled_time k in
  let request :=
    REQUEST_SMS_XML_FORMAT
      (mkFields api_id (token_of (get_nonce (nonce_calls st)) secret) (VStr ty) k
                (escape_xml_string title) (escape_xml_string m) sndr (VStr r)
                scheduled_time) in
  send self (VStr m) (VStr r) title (VStr ty) scheduled_time st =
  (match gabiasms request with
   | RpcResponse _ => Ok (VInt k)
   | RpcError _ => Raise (SMSModuleException "Bad request. Please check api docs")
   | RpcOtherException name => Raise (OtherError name)
   end,
   mkWorld (S (nonce_calls st)) (S (clock_calls st)),
   [EvProxyEnter __API_URL; EvBeforeSend p; EvRpc request (gabiasms request)]
   ++ match gabiasms request with
      | RpcResponse response =>
          debug_log (get_result_code response) ++ [EvPostSent p]
      | RpcError detail => [EvLogError (XmlrpcError detail)]
      | RpcOtherException _ => []
      end
   ++ [EvProxyExit]).
Proof.
  intros Hm Hs Hty Hid Hkey Hsnd k p request. unfold send.
  assert (Hin : py_in (VStr ty) KNOWN_SMS_TYPES = true)
    by (apply py_in_single_known, py_in_iff; eauto).
  rewrite Hin. cbn [negb]. unfold bind.
  rewrite (get_sms_param_ok _ _ _ _ _ _ _ _ Hm Hs Hty Hsnd).
  fold k. fold p. rewrite send_sms_eq. unfold getitem. rewrite Hid, Hkey.
  cbv zeta. cbn [nonce_calls clock_calls].
  assert (Hreq : send_request api_id
                   (token_of (get_nonce (nonce_calls st)) secret) p = request)
    by (unfold p; apply (send_request_single _ _ _ _ _ _ _ _ _ Hty)).
  rewrite Hreq. unfold nonce_drawn. cbn [nonce_calls clock_calls].
  destruct (gabiasms request); cbn [app]; try reflexivity.
  now rewrite <- app_assoc.
Qed.

(** X10: the gateway is reached by [send] only with validated input and
    only with the single-send template: whenever a remote call appears among
    the events, message and receiver are strings, the message is not empty,
    the pattern occurs in the receiver, the sms_type is sms or lms, the three
    settings are present with a string API key, and the request is the
    single-send template filled from them. *)
Theorem send_calls_gateway_only_with_valid_request self message receiver title
    sms_type scheduled_time st res st' evs request out :
  send self message receiver title sms_type scheduled_time st = (res, st', evs) ->
  In (EvRpc request out) evs ->
  exists m r ty api_id secret sndr,
    message = VStr m /\ receiver = VStr r /\ sms_type = VStr ty /\
    m <> EmptyString /\ Re.search PHONE_NUMBER_REGEX r = true /\
    In ty SINGLE_SMS_TYPES /\
    dict_get "API_ID" (__settings self) = Some api_id /\
    dict_get "API_KEY" (__settings self) = Some (VStr secret) /\
    dict_get "SENDER" (__settings self) = Some sndr /\
    request =
      REQUEST_SMS_XML_FORMAT
        (mkFields api_id (token_of (get_nonce (nonce_calls st)) secret) (VStr ty)
                  (py_int (now_timestamp (clock_calls st)))
                  (escape_xml_string title) (escape_xml_string m) sndr (VStr r)
                  scheduled_time) /\
    out = gabiasms request.
Proof.
  unfold send. destruct (negb (py_in sms_type KNOWN_SMS_TYPES)).
  { intros [= <- <- <-] []. }
  unfold bind.
  destruct (__get_sms_param _ _ _ _ _ _ _) as [[[p|e] st1] evs1] eqn:Hp.
  2:{ apply get_sms_param_inv in Hp as [-> _]. intros [= <- <- <-] []. }
  apply get_sms_param_ok_inv in Hp
    as (m & r & ty & sndr & -> & -> & -> & Hm & Hs & Hty & Hsnd & -> & -> & ->).
  rewrite send_sms_eq. unfold getitem.
  destruct (dict_get "API_ID" (__settings self)) as [api_id|] eqn:Hid.
  2:{ intros [= <- <- <-] Hin. cbn in Hin. in_events Hin. }
  destruct (dict_get "API_KEY" (__settings self)) as [[| | |secret| |]|] eqn:Hkey;
    try (intros [= <- <- <-] Hin; cbn in Hin; in_events Hin).
  cbv zeta. cbn [nonce_calls clock_calls].
  rewrite (send_request_single _ _ _ _ _ _ _ _ _ Hty).
  set (req := REQUEST_SMS_XML_FORMAT _).
  intros Hrun Hin.
  assert (Hev : EvRpc request out = EvRpc req (gabiasms req)).
  { destruct (gabiasms req) as [response|detail|name];
      injection Hrun as <- <- <-; cbn in Hin.
    - unfold debug_log in Hin.
      destruct (get_result_code response =? SUCCESS_CODE); cbn in Hin;
        in_events Hin; now symmetry.
    - in_events Hin. now symmetry.
    - in_events Hin. now symmetry. }
  injection Hev as -> ->.
  exists m, r, ty, api_id, secret, sndr. repeat split; auto.
Qed.

(** X11: the events of a [send] are either none at all, and then the send
    raised and drew neither nonce nor clock reading, or they open the proxy,
    run the before-send hook, and close the proxy last, with at most one
    remote call and no second opening or closing in between. *)
Theorem send_events_are_bracketed self message receiver title sms_type
    scheduled_time st res st' evs :
  send self message receiver title sms_type scheduled_time st = (res, st', evs) ->
  (evs = [] /\ st' = st /\ exists e, res = Raise e) \/
  (exists p mid,
     evs = EvProxyEnter __API_URL :: EvBeforeSend p :: mid ++ [EvProxyExit] /\
     filter is_proxy mid = [] /\
     (List.length (filter is_rpc mid) <= 1)%nat /\
     clock_calls st' = S (clock_calls st)).
Proof.
  unfold send. destruct (negb (py_in sms_type KNOWN_SMS_TYPES)).
  { intros [= <- <- <-]. left. eauto. }
  unfold bind.
  destruct (__get_sms_param _ _ _ _ _ _ _) as [[[p|e] st1] evs1] eqn:Hp;
    apply get_sms_param_inv in Hp as [-> Hp].
  2:{ destruct Hp as [-> _]. intros [= <- <- <-]. left. eauto. }
  destruct Hp as (_ & -> & _). rewrite send_sms_eq. intros Hrun. right.
  exists p.
  destruct (getitem (__settings self) "API_ID") as [api_id|e].
  2:{ injection Hrun as <- <- <-. exists []. cbn. auto. }
  destruct (getitem (__settings self) "API_KEY") as [[| | |secret| |]|e];
    try (injection Hrun as <- <- <-; exists []; cbn; auto).
  cbv zeta in Hrun. destruct (gabiasms _) as [response|detail|name];
    injection Hrun as <- <- <-.
  - eexists (EvRpc _ _ :: debug_log (get_result_code response) ++ [EvPostSent p]).
    split; [cbn; now rewrite <- app_assoc|].
    unfold debug_log. destruct (get_result_code response =? SUCCESS_CODE);
      cbn; auto.
  - eexists [EvRpc _ _; EvLogError _]. cbn. auto.
  - eexists [EvRpc _ _]. cbn. auto.
Qed.

(** X12: an exception of the remote call that is not an [xmlrpc_lib.Error]
    leaves [send] as it is: it is neither logged nor replaced, the
    after-send hook does not run, and the proxy is closed. *)
Theorem send_lets_other_exceptions_through self message receiver title
    sms_type scheduled_time st res st' evs request name :
  send self message receiver title sms_type scheduled_time st = (res, st', evs) ->
  In (EvRpc request (RpcOtherException name)) evs ->
  res = Raise (OtherError name) /\
  exists p,
    evs = [EvProxyEnter __API_URL; EvBeforeSend p;
           EvRpc request (RpcOtherException name); EvProxyExit].
Proof.
  unfold send. destruct (negb (py_in sms_type KNOWN_SMS_TYPES)).
  { intros [= <- <- <-] []. }
  unfold bind.
  destruct (__get_sms_param _ _ _ _ _ _ _) as [[[p|e] st1] evs1] eqn:Hp;
    apply get_sms_param_inv in Hp as [-> Hp].
  2:{ intros [= <- <- <-] []. }
  clear Hp. rewrite send_sms_eq.
  destruct (getitem (__settings self) "API_ID") as [api_id|e].
  2:{ intros [= <- <- <-] Hin. cbn in Hin. in_events Hin. }
  destruct (getitem (__settings self) "API_KEY") as [[| | |secret| |]|e];
    try (intros [= <- <- <-] Hin; cbn in Hin; in_events Hin).
  cbv zeta. destruct (gabiasms _) as [response0|detail0|name0] eqn:Hg;
    intros [= <- <- <-] Hin; cbn in Hin.
  - unfold debug_log in Hin.
    destruct (get_result_code response0 =? SUCCESS_CODE); cbn in Hin;
      in_events Hin.
  - in_events Hin.
  - in_events Hin. injection Hin as <- <-. split; [reflexivity | eauto].
Qed.

(** X13: construction does not look at the type of a setting.  With an API
    key that is not a string, token generation cannot concatenate nonce and
    key: every [get_send_result] raises a TypeError with the proxy opened
    and closed around nothing, every [send] raises, and neither ever makes a
    remote call. *)
Theorem non_string_api_key_never_reaches_gateway self api_id v :
  dict_get "API_ID" (__settings self) = Some api_id ->
  dict_get "API_KEY" (__settings self) = Some v ->
  isinstance_str v = false ->
  (forall key st,
     exists d, get_send_result self key st
               = (Raise (TypeError d), nonce_drawn st,
                  [EvProxyEnter __API_URL; EvProxyExit])) /\
  (forall message receiver title sms_type scheduled_time st res st' evs,
     send self message receiver title sms_type scheduled_time st
     = (res, st', evs) ->
     (exists e, res = Raise e) /\ filter is_rpc evs = []).
Proof.
  intros Hid Hkey Hv. split.
  - intros key st. rewrite get_send_result_eq. unfold getitem.
    rewrite Hid, Hkey. destruct v; try discriminate Hv; eauto.
  - intros message receiver title sms_type scheduled_time st res st' evs.
    unfold send. destruct (negb (py_in sms_type KNOWN_SMS_TYPES)).
    { intros [= <- <- <-]. eauto. }
    unfold bind.
    destruct (__get_sms_param _ _ _ _ _ _ _) as [[[p|e] st1] evs1] eqn:Hp;
      apply get_sms_param_inv in Hp as [-> Hp].
    2:{ intros [= <- <- <-]. eauto. }
    clear Hp. rewrite send_sms_eq. unfold getitem. rewrite Hid, Hkey.
    destruct v; try discriminate Hv; intros [= <- <- <-]; eauto.
Qed.

(** X14: [get_send_result] never reads the clock and never runs a hook; it
    opens the proxy first and closes it last, draws at most one nonce and
    makes at most one remote call. *)
Theorem get_send_result_frame self key st res st' evs :
  get_send_result self key st = (res, st', evs) ->
  clock_calls st' = clock_calls st /\
  (nonce_calls st <= nonce_calls st' <= S (nonce_calls st))%nat /\
  filter is_hook evs = [] /\
  exists mid,
    evs = EvProxyEnter __API_URL :: mid ++ [EvProxyExit] /\
    filter is_proxy mid = [] /\
    (List.length (filter is_rpc mid) <= 1)%nat.
Proof.
  rewrite get_send_result_eq.
  destruct (getitem (__settings self) "API_ID") as [api_id|e].
  2:{ intros [= <- <- <-]. cbn. repeat split; auto. exists []. cbn. auto. }
  destruct (getitem (__settings self) "API_KEY") as [[| | |secret| |]|e];
    try (intros [= <- <- <-]; cbn; repeat split; auto; exists []; cbn; auto).
  cbv zeta. destruct (gabiasms _) as [response|detail|name];
    intros [= <- <- <-]; cbn; repeat split; auto.
  - eexists [EvRpc _ _]. cbn. auto.
  - eexists [EvRpc _ _; EvLogError _]. cbn. auto.
  - eexists [EvRpc _ _]. cbn. auto.
Qed.

(** X15: a [send] followed by a lookup of the key it returned.  On valid
    input and a gateway that answers the send, the lookup carries the
    integer key of the send and a token built from the next nonce, the
    clock is read once for both, and the result is the code of the lookup
    response. *)
Theorem send_then_lookup self m r title scheduled_time ty api_id secret sndr st
    response1 response2 :
  m <> EmptyString ->
  Re.search PHONE_NUMBER_REGEX r = true ->
  In ty SINGLE_SMS_TYPES ->
  dict_get "API_ID" (__settings self) = Some api_id ->
  dict_get "API_KEY" (__settings self) = Some (VStr secret) ->
  dict_get "SENDER" (__settings self) = Some sndr ->
  let k := py_int (now_timestamp (clock_calls st)) in
  let p := mkParam sndr (VStr ty) (escape_xml_string m) (VStr r)
                   (escape_xml_string title) scheduled_time k in
  let request1 :=
    REQUEST_SMS_XML_FORMAT
      (mkFields api_id (token_of (get_nonce (nonce_calls st)) secret) (VStr ty) k
                (escape_xml_string title) (escape_xml_string m) sndr (VStr r)
                scheduled_time) in
  let request2 :=
    REQUEST_SMS_RESULT_FORMAT api_id
      (token_of (get_nonce (S (nonce_calls st))) secret) (VInt k) in
  gabiasms request1 = RpcResponse response1 ->
  gabiasms request2 = RpcResponse response2 ->
  (key <- send self (VStr m) (VStr r) title (VStr ty) scheduled_time ;;
   get_send_result self key) st
  = (Ok (get_result_code response2),
     mkWorld (S (S (nonce_calls st))) (S (clock_calls st)),
     ([EvProxyEnter __API_URL; EvBeforeSend p;
       EvRpc request1 (RpcResponse response1)]
      ++ debug_log (get_result_code response1)
      ++ [EvPostSent p; EvProxyExit])
     ++ [EvProxyEnter __API_URL; EvRpc request2 (RpcResponse response2);
         EvProxyExit]).
Proof.
  intros Hm Hs Hty Hid Hkey Hsnd k p request1 request2 Hg1 Hg2.
  unfold bind at 1. unfold send.
  assert (Hin : py_in (VStr ty) KNOWN_SMS_TYPES = true)
    by (apply py_in_single_known, py_in_iff; eauto).
  rewrite Hin. cbn [negb]. unfold bind at 1.
  rewrite (get_sms_param_ok _ _ _ _ _ _ _ _ Hm Hs Hty Hsnd).
  fold k. fold p. rewrite send_sms_eq. unfold getitem. rewrite Hid, Hkey.
  cbv zeta. cbn [nonce_calls clock_calls].
  assert (Hreq : send_request api_id
                   (token_of (get_nonce (nonce_calls st)) secret) p = request1)
    by (unfold p; apply (send_request_single _ _ _ _ _ _ _ _ _ Hty)).
  rewrite Hreq, Hg1. cbv beta iota. cbn [app].
  rewrite get_send_result_eq. unfold getitem. rewrite Hid, Hkey. cbv zeta.
  unfold nonce_drawn. cbn [nonce_calls clock_calls key p].
  fold k. fold request2. rewrite Hg2. reflexivity.
Qed.

(** X16: no bulk send gets past request construction.  For sms_type
    multi_sms or multi_lms, [send] raises without any event and without
    drawing nonce or clock: a TypeError when the receiver cannot be turned
    into a set, "Please check required parameters!" when the message or the
    set of receivers is empty, and "Please check parameters type!" in every
    other case. *)
Theorem send_bulk_always_raises self message receiver title ty scheduled_time st :
  In ty MULTI_SMS_TYPES ->
  send self message receiver title (VStr ty) scheduled_time st
  = (Raise
       match py_set receiver with
       | Raise e => e
       | Ok receivers =>
           if truthy message && truthy receivers
           then SMSModuleException "Please check parameters type!"
           else SMSModuleException "Please check required parameters!"
       end,
     st, []).
Proof.
  intros Hty. unfold send.
  assert (Hk : py_in (VStr ty) KNOWN_SMS_TYPES = true /\
               py_in (VStr ty) SINGLE_SMS_TYPES = false).
  { cbn in Hty. destruct Hty as [<-|[<-|[]]]; split; reflexivity. }
  destruct Hk as [Hk Hs]. rewrite Hk. cbn [negb].
  unfold bind at 1. unfold __get_sms_param. rewrite Hs.
  unfold bind, lift. destruct (py_set receiver) as [receivers|e]; [|reflexivity].
  unfold __validate_required_multi_params.
  destruct (truthy message && truthy receivers); cbn [negb]; [|reflexivity].
  now rewrite not_list_or_not_set.
Qed.

End SendProperties.

(** ** The further properties on the test doubles *)

Lemma send_on_valid_input_witness :
  fst (fst Fake.accepted_send) = Ok (VInt 1700000000) /\
  snd (fst Fake.accepted_send) = mkWorld 1 1.
Proof.
  unfold Fake.accepted_send.
  rewrite (@send_on_valid_input Fake.helpers Fake.world_accepting Fake.client
             "hello" "01012345678" "SEND" "0" "sms" (VStr "id1") "key1"
             (VStr "0100000000") Fake.st0).
  - split; reflexivity.
  - discriminate.
  - reflexivity.
  - cbn. auto.
  - reflexivity.
  - reflexivity.
  - reflexivity.
Defined.

Lemma send_calls_gateway_only_with_valid_request_witness :
  exists m r ty,
    VStr "hello" = VStr m /\ VStr "01012345678" = VStr r /\ VStr "sms" = VStr ty /\
    m <> EmptyString /\ Re.search PHONE_NUMBER_REGEX r = true /\
    In ty SINGLE_SMS_TYPES.
Proof.
  destruct (@send_calls_gateway_only_with_valid_request Fake.helpers
              Fake.world_rejecting Fake.client (VStr "hello") (VStr "01012345678")
              "SEND" (VStr "sms") "0" Fake.st0
              (fst (fst Fake.rejected_send)) (snd (fst Fake.rejected_send))
              (snd Fake.rejected_send)
              "<sms>nonce0680fb11e03e9ce03aa30d5f165661bef|sms|01012345678|hello</sms>"
              (RpcResponse "0001 FAIL"))
    as (m & r & ty & _ & _ & _ & H1 & H2 & H3 & H4 & H5 & H6 & _).
  - vm_compute. reflexivity.
  - vm_compute. right. right. left. reflexivity.
  - exists m, r, ty. auto 10.
Defined.

Lemma send_events_are_bracketed_witness :
  (snd Fake.faulted_send = [] /\ snd (fst Fake.faulted_send) = Fake.st0 /\
   exists e, fst (fst Fake.faulted_send) = Raise e) \/
  (exists p mid,
     snd Fake.faulted_send
     = EvProxyEnter __API_URL :: EvBeforeSend p :: mid ++ [EvProxyExit] /\
     filter is_proxy mid = [] /\
     (List.length (filter is_rpc mid) <= 1)%nat /\
     clock_calls (snd (fst Fake.faulted_send)) = S (clock_calls Fake.st0)).
Proof.
  apply (@send_events_are_bracketed Fake.helpers Fake.world_faulty Fake.client
           (VStr "hello") (VStr "01012345678") "SEND" (VStr "sms") "0" Fake.st0).
  vm_compute. reflexivity.
Defined.

Lemma send_lets_other_exceptions_through_witness :
  fst (fst (@send Fake.helpers Scenario.world_unreachable Fake.client
                  (VStr "hello") (VStr "01012345678") "SEND" (VStr "sms") "0"
                  Fake.st0))
  = Raise (OtherError "ConnectionRefusedError").
Proof.
  apply (@send_lets_other_exceptions_through Fake.helpers
           Scenario.world_unreachable Fake.client (VStr "hello")
           (VStr "01012345678") "SEND" (VStr "sms") "0" Fake.st0 _
           (snd (fst (@send Fake.helpers Scenario.world_unreachable Fake.client
                            (VStr "hello") (VStr "01012345678") "SEND"
                            (VStr "sms") "0" Fake.st0)))
           (snd (@send Fake.helpers Scenario.world_unreachable Fake.client
                       (VStr "hello") (VStr "01012345678") "SEND" (VStr "sms")
                       "0" Fake.st0))
           "<sms>nonce0680fb11e03e9ce03aa30d5f165661bef|sms|01012345678|hello</sms>"
           "ConnectionRefusedError").
  - vm_compute. reflexivity.
  - vm_compute. right. right. left. reflexivity.
Defined.

Lemma non_string_api_key_never_reaches_gateway_witness :
  __init__ (Some Scenario.numeric_key_settings) = Ok Scenario.numeric_key_client /\
  exists d,
    @get_send_result Fake.helpers Fake.world_accepting Scenario.numeric_key_client
                     (VStr "123") Fake.st0
    = (Raise (TypeError d), nonce_drawn Fake.st0,
       [EvProxyEnter __API_URL; EvProxyExit]).
Proof.
  split; [reflexivity|].
  destruct (@non_string_api_key_never_reaches_gateway Fake.helpers
              Fake.world_accepting Scenario.numeric_key_client (VStr "id1")
              (VInt 12345) eq_refl eq_refl eq_refl) as [H _].
  apply H.
Defined.

Lemma get_send_result_frame_witness :
  clock_calls (snd (fst (@get_send_result Fake.helpers Fake.world_rejecting
                                          Fake.client (VStr "123") Fake.st0)))
  = clock_calls Fake.st0.
Proof.
  destruct (@get_send_result_frame Fake.helpers Fake.world_rejecting Fake.client
              (VStr "123") Fake.st0 _ _ _ eq_refl) as [H _].
  exact H.
Defined.

Lemma send_then_lookup_witness :
  fst (fst (bind (@send Fake.helpers Fake.world_rejecting Fake.client
                        (VStr "hello") (VStr "01012345678") "SEND" (VStr "sms") "0")
                 (fun key => @get_send_result Fake.helpers Fake.world_rejecting
                                              Fake.client key)
                 Fake.st0))
  = Ok "0001".
Proof.
  rewrite (@send_then_lookup Fake.helpers Fake.world_rejecting Fake.client
             "hello" "01012345678" "SEND" "0" "sms" (VStr "id1") "key1"
             (VStr "0100000000") Fake.st0 "0001 FAIL" "0001 FAIL").
  - reflexivity.
  - discriminate.
  - reflexivity.
  - cbn. auto.
  - reflexivity.
  - reflexivity.
  - reflexivity.
  - reflexivity.
  - reflexivity.
Defined.

Lemma send_bulk_always_raises_witness :
  @send Fake.helpers Fake.world_accepting Fake.client (VStr "hi")
        (VSet ["01012345678"; "01098765432"]) "SEND" (VStr "multi_lms") "0" Fake.st0
  = (Raise (SMSModuleException "Please check parameters type!"), Fake.st0, []).
Proof.
  rewrite (@send_bulk_always_raises Fake.helpers Fake.world_accepting).
  - reflexivity.
  - cbn. auto.
Defined.

(** ** Constructed clients *)

Section ConstructedClient.
Context {helpers : Helpers} {world : World}.

(** X17: on a client that the constructor returned, neither [send] nor
    [get_send_result] can fail on a missing setting: no run of either raises
    a KeyError. *)
Theorem constructed_client_never_raises_key_error src self :
  __init__ src = Ok self ->
  (forall message receiver title sms_type scheduled_time st k,
     fst (fst (send self message receiver title sms_type scheduled_time st))
     <> Raise (KeyError k)) /\
  (forall key st k,
     fst (fst (get_send_result self key st)) <> Raise (KeyError k)).
Proof.
  intros Hinit.
  destruct (init_ok_settings src self "API_ID" Hinit) as (api_id & Hid & _);
    [cbn; auto|].
  destruct (init_ok_settings src self "API_KEY" Hinit) as (api_key & Hkey & _);
    [cbn; auto|].
  destruct (init_ok_settings src self "SENDER" Hinit) as (sndr & Hsnd & _);
    [cbn; auto|].
  split.
  - intros message receiver title sms_type scheduled_time st k.
    unfold send. destruct (negb (py_in sms_type KNOWN_SMS_TYPES));
      [discriminate|].
    unfold bind at 1.
    destruct (__get_sms_param _ _ _ _ _ _ _) as [[[p|e] st1] evs1] eqn:Hp.
    + rewrite send_sms_eq. unfold getitem. rewrite Hid, Hkey.
      destruct api_key; try discriminate. cbv zeta.
      destruct (gabiasms _); discriminate.
    + cbn [fst]. intros [= ->].
      unfold __get_sms_param, bind, lift, getitem in Hp. rewrite Hsnd in Hp.
      destruct (py_in sms_type SINGLE_SMS_TYPES).
      * destruct (__validate_required_params message receiver) as [[]|e] eqn:Hv.
        -- destruct message; discriminate Hp.
        -- apply validate_required_params_raise in Hv as (msg & -> & _).
           discriminate Hp.
      * destruct (py_set receiver) as [receivers|e] eqn:Hs.
        -- destruct (validate_required_multi_params_raise message receivers)
             as (msg & Hv & _).
           rewrite Hv in Hp. discriminate Hp.
        -- destruct receiver; try discriminate Hs;
             injection Hs as <-; discriminate Hp.
  - intros key st k. rewrite get_send_result_eq. unfold getitem.
    rewrite Hid, Hkey. destruct api_key; try discriminate. cbv zeta.
    destruct (gabiasms _); discriminate.
Qed.

End ConstructedClient.

Lemma constructed_client_never_raises_key_error_witness :
  fst (fst (@get_send_result Fake.helpers Fake.world_faulty Fake.client
                             (VStr "123") Fake.st0))
  <> Raise (KeyError "API_ID").
Proof.
  destruct (@constructed_client_never_raises_key_error Fake.helpers
              Fake.world_faulty (Some Fake.valid_settings) Fake.client eq_refl)
    as [_ H].
  apply H.
Defined.

